(** * ingest_data.py: loading a CSV or Parquet file into a PostgreSQL table

    A shallow embedding of [cohorts/2026/01-docker-terraform/docker/ingest_data.py]
    and the properties of its batch loops, of its format dispatch and of its
    datetime-column detection.

    Python integers are [Z]; [str] is [string] (a sequence of bytes, so
    [lower] folds the ASCII letters only); a pandas [DataFrame] is an index
    of row labels and a list of named columns; the PostgreSQL server is a
    finite map from table names to tables.  Effects (printing, creating an
    engine, issuing a [to_sql], raising) are threaded through a state and
    exception monad over a [World].  Wall-clock measurements ([time()]) are
    not represented: the progress lines carry every field but the elapsed
    seconds. *)

From Stdlib Require Import Ascii ZArith Lia.
From stdpp Require Import base option list strings gmap.

Open Scope Z_scope.

(** ** Python built-ins on [str], [range] and [enumerate] *)

Module Py.

(** [c.lower()] on one byte. *)
Definition lower_ascii (c : ascii) : ascii :=
  let n := N_of_ascii c in
  if ((65 <=? n) && (n <=? 90))%N then ascii_of_N (n + 32) else c.

(** [s.lower()] *)
Fixpoint lower (s : string) : string :=
  match s with
  | EmptyString => EmptyString
  | String c s' => String (lower_ascii c) (lower s')
  end.

(** [sub in s]: [sub] occurs in [s] at some offset. *)
Fixpoint contains (sub s : string) : bool :=
  String.prefix sub s ||
  match s with
  | EmptyString => false
  | String _ s' => contains sub s'
  end.

(** [s.endswith(suffix)]: the last [len(suffix)] characters of [s] are
    [suffix]. *)
Definition endswith (s suffix : string) : bool :=
  let n := String.length s in
  let m := String.length suffix in
  (m <=? n)%nat && String.eqb (String.substring (n - m) m s) suffix.

(** [range(start, stop, step)] as the list it iterates over.  Python raises
    [ValueError] for [step = 0]; the program only uses [step = 100000]. *)
Definition range_len (start stop step : Z) : Z :=
  if 0 <? step then
    (if start <? stop then (stop - start - 1) / step + 1 else 0)
  else if step <? 0 then
    (if stop <? start then (start - stop - 1) / (- step) + 1 else 0)
  else 0.

Definition range (start stop step : Z) : list Z :=
  (λ k : nat, start + Z.of_nat k * step) <$> seq 0 (Z.to_nat (range_len start stop step)).

(** [enumerate(xs, i)] *)
Fixpoint enumerate_from {A} (i : Z) (xs : list A) : list (Z * A) :=
  match xs with
  | [] => []
  | x :: xs' => (i, x) :: enumerate_from (i + 1) xs'
  end.

Definition enumerate {A} (xs : list A) : list (Z * A) := enumerate_from 0 xs.

(** [xs[a:b]] for [0 <= a] and [0 <= b], the only slices the program takes. *)
Definition slice {A} (a b : Z) (xs : list A) : list A :=
  take (Z.to_nat (b - a)) (drop (Z.to_nat a) xs).

End Py.

(** ** pandas: series, frames and what [to_sql] writes *)

Inductive Dtype := Int64 | Float64 | Object | Datetime64.

(** A cell.  The loader never looks inside one; a float is kept as an
    uninterpreted mantissa and exponent. *)
Inductive Value :=
| VNull
| VInt (z : Z)
| VFloat (m e : Z)
| VStr (s : string)
| VTimestamp (ns : Z).

Record Series := mkSeries { dtype : Dtype; values : list Value }.

(** [index] holds the row labels ([len(df)] is its length), [data] the
    columns in order. *)
Record DataFrame := mkFrame { index : list Z; data : list (string * Series) }.

#[global] Instance Dtype_eq_dec : EqDecision Dtype.
Proof. solve_decision. Defined.
#[global] Instance Value_eq_dec : EqDecision Value.
Proof. solve_decision. Defined.
#[global] Instance Series_eq_dec : EqDecision Series.
Proof. solve_decision. Defined.
#[global] Instance DataFrame_eq_dec : EqDecision DataFrame.
Proof. solve_decision. Defined.

Module Pd.

(** [len(df)] *)
Definition len (df : DataFrame) : Z := Z.of_nat (length (index df)).

(** [df.columns.tolist()] *)
Definition columns (df : DataFrame) : list string := (data df).*1.

Definition slice_series (a b : Z) (s : Series) : Series :=
  {| dtype := dtype s; values := Py.slice a b (values s) |}.

(** [df.iloc[a:b]] *)
Definition iloc (df : DataFrame) (a b : Z) : DataFrame :=
  {| index := Py.slice a b (index df);
     data := prod_map id (slice_series a b) <$> data df |}.

(** [df.head(n)] for [0 <= n] *)
Definition head (df : DataFrame) (n : Z) : DataFrame := iloc df 0 n.

(** [df[col]]: the column named [col], if any. *)
Fixpoint getitem_cols (cols : list (string * Series)) (col : string) : option Series :=
  match cols with
  | [] => None
  | (name, s) :: cols' => if decide (name = col) then Some s else getitem_cols cols' col
  end.

Definition getitem (df : DataFrame) (col : string) : option Series :=
  getitem_cols (data df) col.

(** [df[col] = s]: an existing column is overwritten in place, a new one is
    added last. *)
Fixpoint setitem_cols (cols : list (string * Series)) (col : string) (s : Series)
  : list (string * Series) :=
  match cols with
  | [] => [(col, s)]
  | (name, s0) :: cols' =>
      if decide (name = col) then (name, s) :: cols'
      else (name, s0) :: setitem_cols cols' col s
  end.

Definition setitem (df : DataFrame) (col : string) (s : Series) : DataFrame :=
  {| index := index df; data := setitem_cols (data df) col s |}.

(** [df.select_dtypes(include=['datetime64']).columns] *)
Definition select_dtypes_datetime64 (df : DataFrame) : list string :=
  (filter (λ c : string * Series, dtype c.2 = Datetime64) (data df)).*1.

(** The column names and types a table created from [df] gets. *)
Definition schema_of (df : DataFrame) : list (string * Dtype) :=
  prod_map id dtype <$> data df.

(** The tuples [to_sql(index=False)] inserts: one per row label, holding
    that row's cell of every column (the labels themselves are not
    written). *)
Fixpoint tuples (n : nat) (cols : list (list Value)) : list (list Value) :=
  match n with
  | O => []
  | S n' => ((λ c, default VNull (List.head c)) <$> cols) :: tuples n' (tail <$> cols)
  end.

Definition rows_of (df : DataFrame) : list (list Value) :=
  tuples (length (index df)) ((λ c : string * Series, values c.2) <$> data df).

End Pd.

(** ** The world the script runs in *)

(** A local file, as the pandas readers decode it.  A gzipped CSV decodes
    to the same frame as the plain one. *)
Inductive FileData :=
| ParquetData (df : DataFrame)
| CsvData (df : DataFrame).

(** A PostgreSQL table: column names and types in order, and its tuples. *)
Record Table := mkTable { schema : list (string * Dtype); rows : list (list Value) }.

#[global] Instance Table_eq_dec : EqDecision Table.
Proof. solve_decision. Defined.

Inductive IfExists := Replace | Append.

(** One [to_sql] call as the server sees it. *)
Inductive SqlOp :=
| SqlReplace (name : string) (df : DataFrame)
| SqlAppend (name : string) (df : DataFrame).

(** The lines the script prints.  [InsertedParquet i total chunk_end n] is
    "Inserted chunk i/total (chunk_end/n rows), took ... seconds" and
    [InsertedCsv i n] is "Inserted chunk i (n rows), took ... seconds". *)
Inductive Line :=
| DetectedParquet
| DetectedCsv
| UnsupportedFormat
| ReadingParquet (file_path : string)
| ReadingCsv (file_path : string)
| Loaded (n : Z)
| Columns (cols : list string)
| DetectedDatetime (cols : list string)
| Inserting (table_name : string)
| InsertedParquet (i total chunk_end n : Z)
| InsertedCsv (i n : Z)
| Completed.

#[global] Instance Line_eq_dec : EqDecision Line.
Proof. solve_decision. Defined.

Inductive Exn :=
| FileNotFoundError (file_path : string)
| ParserError (file_path : string)
| KeyError (col : string)
| DateParseError
| SchemaMismatch (table_name : string).

Record World := mkWorld {
  files : gmap string FileData;   (* the local file system, only read *)
  stdout : list Line;             (* printed so far, oldest first *)
  engines : list string;          (* [create_engine] calls, by URL *)
  sql_log : list SqlOp;           (* [to_sql] calls issued, oldest first *)
  db : gmap string Table          (* the server's tables *)
}.

Inductive Result (A : Type) :=
| Ok (a : A)
| Raised (e : Exn).
Arguments Ok {A} a.
Arguments Raised {A} e.

(** A computation runs from a world to a world and a result; what was done
    before an exception stays done. *)
Definition M (A : Type) : Type := World → World * Result A.

#[global] Instance M_ret : MRet M := λ A a w, (w, Ok a).
#[global] Instance M_bind : MBind M := λ A B f m w,
  match m w with
  | (w', Ok a) => f a w'
  | (w', Raised e) => (w', Raised e)
  end.

Definition raise {A} (e : Exn) : M A := λ w, (w, Raised e).

Definition print (l : Line) : M unit := λ w,
  (mkWorld (files w) (stdout w ++ [l]) (engines w) (sql_log w) (db w), Ok tt).

(** [for x in xs: body(x)] *)
Fixpoint for_each {A} (xs : list A) (body : A → M unit) : M unit :=
  match xs with
  | [] => mret tt
  | x :: xs' => body x ;; for_each xs' body
  end.

(** A loop that rebinds one variable: [for x in xs: acc = step(acc, x)]. *)
Fixpoint fold_each {A S} (xs : list A) (step : S → A → M S) (acc : S) : M S :=
  match xs with
  | [] => mret acc
  | x :: xs' => acc' ← step acc x; fold_each xs' step acc'
  end.

Record Engine := mkEngine { url : string }.

(** *** External collaborators: sqlalchemy, the server, the pandas readers

    Their code is not the script's; the definitions below follow the
    libraries' documented behaviour as far as the script depends on it. *)

(** [sqlalchemy.create_engine(url)]: lazy, no connection is opened yet. *)
Definition create_engine (u : string) : M Engine := λ w,
  (mkWorld (files w) (stdout w) (engines w ++ [u]) (sql_log w) (db w), Ok (mkEngine u)).

Definition set_db (d : gmap string Table) (w : World) : World :=
  mkWorld (files w) (stdout w) (engines w) (sql_log w) d.

Definition log_sql (op : SqlOp) (w : World) : World :=
  mkWorld (files w) (stdout w) (engines w) (sql_log w ++ [op]) (db w).

(** [df.to_sql(name=name, con=con, if_exists=..., index=False)].
    [Replace] drops the table and creates it from the frame; [Append]
    inserts into the table, creating it when it is missing, and fails when
    the frame's columns are not the table's.  The call is logged when it
    is issued, whether or not the server accepts it. *)
Definition to_sql (df : DataFrame) (name : string) (con : Engine) (if_exists : IfExists)
  : M unit := λ w,
  match if_exists with
  | Replace =>
      let w := log_sql (SqlReplace name df) w in
      (set_db (<[name := mkTable (Pd.schema_of df) (Pd.rows_of df)]> (db w)) w, Ok tt)
  | Append =>
      let w := log_sql (SqlAppend name df) w in
      match db w !! name with
      | None =>
          (set_db (<[name := mkTable (Pd.schema_of df) (Pd.rows_of df)]> (db w)) w, Ok tt)
      | Some t =>
          if decide ((schema t).*1 = Pd.columns df) then
            (set_db (<[name := mkTable (schema t) (rows t ++ Pd.rows_of df)]> (db w)) w,
             Ok tt)
          else (w, Raised (SchemaMismatch name))
      end
  end.

(** [pd.read_parquet(file_path)] *)
Definition read_parquet (file_path : string) : M DataFrame := λ w,
  match files w !! file_path with
  | Some (ParquetData df) => (w, Ok df)
  | Some (CsvData _) => (w, Raised (ParserError file_path))
  | None => (w, Raised (FileNotFoundError file_path))
  end.

(** The chunks a [TextFileReader] yields: successive slices of [chunksize]
    rows, the last one possibly shorter, and no chunk after the last row.
    When the file has a header and no data row, the first read still
    returns one frame, with the header's columns and no row (pandas issue
    9535 and its regression test [test_empty_with_nrows_chunksize]); the
    iteration ends after it. *)
Definition csv_chunks (df : DataFrame) (chunksize : Z) : list DataFrame :=
  if Pd.len df =? 0 then [df]
  else (λ a, Pd.iloc df a (Z.min (a + chunksize) (Pd.len df)))
         <$> Py.range 0 (Pd.len df) chunksize.

(** [pd.read_csv(file_path, nrows=nrows)] *)
Definition read_csv_nrows (file_path : string) (nrows : Z) : M DataFrame := λ w,
  match files w !! file_path with
  | Some (CsvData df) => (w, Ok (Pd.head df nrows))
  | Some (ParquetData _) => (w, Raised (ParserError file_path))
  | None => (w, Raised (FileNotFoundError file_path))
  end.

(** [pd.read_csv(file_path, iterator=True, chunksize=chunksize)] *)
Definition read_csv_iterator (file_path : string) (chunksize : Z) : M (list DataFrame) := λ w,
  match files w !! file_path with
  | Some (CsvData df) => (w, Ok (csv_chunks df chunksize))
  | Some (ParquetData _) => (w, Raised (ParserError file_path))
  | None => (w, Raised (FileNotFoundError file_path))
  end.

(** The [argparse] namespace. *)
Record Params := mkParams {
  user : string; password : string; host : string; port : string;
  db_name : string; table_name : string; file_path : string }.

(** ** The script *)

Section Script.

(** [pd.to_datetime] on a column: the parsed column, or [None] when it
    raises. *)
Variable to_datetime : Series → option Series.

Definition pd_to_datetime (s : Series) : M Series :=
  match to_datetime s with
  | Some s' => mret s'
  | None => raise DateParseError
  end.

(** [df[col]], raising [KeyError] for a missing column. *)
Definition df_getitem (df : DataFrame) (col : string) : M Series :=
  match Pd.getitem df col with
  | Some s => mret s
  | None => raise (KeyError col)
  end.

Definition postgresql_url (params : Params) : string :=
  "postgresql://" +:+ user params +:+ ":" +:+ password params +:+ "@" +:+
  host params +:+ ":" +:+ port params +:+ "/" +:+ db_name params.

Definition ingest_parquet (params : Params) : M unit :=
  let table_name := table_name params in
  let file_path := file_path params in
  engine ← create_engine (postgresql_url params);
  print (ReadingParquet file_path);;
  df ← read_parquet file_path;
  print (Loaded (Pd.len df));;
  print (Columns (Pd.columns df));;
  let datetime_columns := Pd.select_dtypes_datetime64 df in
  df ← fold_each datetime_columns
         (λ df col, s ← df_getitem df col; s' ← pd_to_datetime s;
                    mret (Pd.setitem df col s'))
         df;
  let chunk_size := 100000 in
  let total_chunks := Pd.len df `div` chunk_size + 1 in
  print (Inserting table_name);;
  for_each (Py.enumerate (Py.range 0 (Pd.len df) chunk_size))
    (λ '(i, chunk_start),
       let chunk_end := Z.min (chunk_start + chunk_size) (Pd.len df) in
       let chunk := Pd.iloc df chunk_start chunk_end in
       (if i =? 0 then
          to_sql (Pd.head chunk 0) table_name engine Replace;;
          to_sql chunk table_name engine Append
        else
          to_sql chunk table_name engine Append);;
       print (InsertedParquet (i + 1) total_chunks chunk_end (Pd.len df)));;
  print Completed.

(** The test [if 'date' in col.lower() or 'time' in col.lower()]. *)
Definition is_datetime_name (col : string) : bool :=
  Py.contains "date" (Py.lower col) || Py.contains "time" (Py.lower col).

Definition ingest_csv (params : Params) : M unit :=
  let table_name := table_name params in
  let file_path := file_path params in
  engine ← create_engine (postgresql_url params);
  print (ReadingCsv file_path);;
  df_sample ← read_csv_nrows file_path 100;
  print (Columns (Pd.columns df_sample));;
  datetime_columns ← fold_each (Pd.columns df_sample)
         (λ datetime_columns col,
            if is_datetime_name col then mret (datetime_columns ++ [col])
            else mret datetime_columns)
         [];
  print (DetectedDatetime datetime_columns);;
  let chunk_size := 100000 in
  chunk_iterator ← read_csv_iterator file_path chunk_size;
  print (Inserting table_name);;
  for_each (Py.enumerate chunk_iterator)
    (λ '(i, chunk),
       chunk ← fold_each datetime_columns
         (λ chunk col,
            if decide (col ∈ Pd.columns chunk) then
              s ← df_getitem chunk col; s' ← pd_to_datetime s;
              mret (Pd.setitem chunk col s')
            else mret chunk)
         chunk;
       (if i =? 0 then
          to_sql (Pd.head chunk 0) table_name engine Replace;;
          to_sql chunk table_name engine Append
        else
          to_sql chunk table_name engine Append);;
       print (InsertedCsv (i + 1) (Pd.len chunk)));;
  print Completed.

Definition main (params : Params) : M unit :=
  let file_path := file_path params in
  if Py.endswith file_path ".parquet" then
    print DetectedParquet;;
    ingest_parquet params
  else if Py.endswith file_path ".csv" || Py.endswith file_path ".csv.gz" then
    print DetectedCsv;;
    ingest_csv params
  else
    print UnsupportedFormat.

End Script.

(** ** The loops read as pure functions

    The conversion loops have no effect on the world besides raising, and
    the batch loop's effect is determined by the list of batches it
    writes.  The definitions below name these readings; the properties
    section proves that the script computes them. *)

(** An effect-free computation. *)
Definition lift {A} (r : Result A) : M A := λ w, (w, r).

Section Readings.

Variable to_datetime : Series → option Series.

(** [df[col] = pd.to_datetime(df[col])] *)
Definition convert_column (df : DataFrame) (col : string) : Result DataFrame :=
  match Pd.getitem df col with
  | None => Raised (KeyError col)
  | Some s =>
      match to_datetime s with
      | None => Raised DateParseError
      | Some s' => Ok (Pd.setitem df col s')
      end
  end.

(** The Parquet path's loop over [datetime_columns]. *)
Fixpoint normalize (cols : list string) (df : DataFrame) : Result DataFrame :=
  match cols with
  | [] => Ok df
  | col :: cols' =>
      match convert_column df col with
      | Ok df' => normalize cols' df'
      | Raised e => Raised e
      end
  end.

(** The CSV path's loop over [datetime_columns], on one chunk. *)
Fixpoint coerce (cols : list string) (chunk : DataFrame) : Result DataFrame :=
  match cols with
  | [] => Ok chunk
  | col :: cols' =>
      if decide (col ∈ Pd.columns chunk) then
        match convert_column chunk col with
        | Ok chunk' => coerce cols' chunk'
        | Raised e => Raised e
        end
      else coerce cols' chunk
  end.

End Readings.

(** The columns the CSV path detects in a column list. *)
Definition detect_datetime_columns (cols : list string) : list string :=
  filter (λ col, is_datetime_name col = true) cols.

(** The chunks of a CSV run after conversion: one per chunk read, each the
    conversion of its raw chunk. *)
Definition coerced_from (to_datetime : Series → option Series)
    (df : DataFrame) (batches : list DataFrame) : Prop :=
  Forall2 (λ raw chunk, coerce to_datetime (detect_datetime_columns (Pd.columns df)) raw
                        = Ok chunk)
    (csv_chunks df 100000) batches.

(** The slices the Parquet loop takes of the loaded frame. *)
Definition parquet_batches (df : DataFrame) : list DataFrame :=
  (λ chunk_start, Pd.iloc df chunk_start (Z.min (chunk_start + 100000) (Pd.len df)))
    <$> Py.range 0 (Pd.len df) 100000.

(** An iteration of the Parquet loop over an empty range of rows: its
    [chunk_end] is not beyond its [chunk_start]. *)
Definition has_empty_range_iteration (n : Z) : Prop :=
  ∃ i chunk_start,
    (i, chunk_start) ∈ Py.enumerate (Py.range 0 n 100000) ∧
    Z.min (chunk_start + 100000) n ≤ chunk_start.

(** What either loop does with batch [i]. *)
Definition write_batch (table_name : string) (engine : Engine) (i : Z) (chunk : DataFrame)
  : M unit :=
  if i =? 0 then
    to_sql (Pd.head chunk 0) table_name engine Replace;;
    to_sql chunk table_name engine Append
  else
    to_sql chunk table_name engine Append.

(** The common shape of the two batch loops' bodies: obtain the batch from
    the loop variable [x] (a start offset, or a raw chunk), write it, and
    print a progress line. *)
Definition loop_body {X} (prep : X → Result DataFrame) (line : Z → X → DataFrame → Line)
    (table_name : string) (engine : Engine) : Z * X → M unit :=
  λ '(i, x),
    chunk ← lift (prep x);
    write_batch table_name engine i chunk;;
    print (line i x chunk).

(** The progress line of each path's loop, from the loop index, the loop
    variable and the batch written. *)
Definition parquet_line (df : DataFrame) : Z → Z → DataFrame → Line :=
  λ i chunk_start _,
    InsertedParquet (i + 1) (Pd.len df `div` 100000 + 1)
      (Z.min (chunk_start + 100000) (Pd.len df)) (Pd.len df).

Definition csv_line : Z → DataFrame → DataFrame → Line :=
  λ i _ chunk, InsertedCsv (i + 1) (Pd.len chunk).

(** Batches sharing the first one's columns. *)
Definition uniform (batches : list DataFrame) : Prop :=
  ∀ chunk, head batches = Some chunk →
    Forall (λ chunk', Pd.columns chunk' = Pd.columns chunk) batches.

(** ** What a run leaves behind *)

(** The part of a run's [sql_log] and [stdout] that the run added. *)
Definition new_ops (w w' : World) : list SqlOp := drop (length (sql_log w)) (sql_log w').
Definition new_lines (w w' : World) : list Line := drop (length (stdout w)) (stdout w').

(** The frames appended by a list of [to_sql] calls, and the number of
    rows they carry. *)
Definition appended (ops : list SqlOp) : list DataFrame :=
  omap (λ op, match op with SqlAppend _ df => Some df | SqlReplace _ _ => None end) ops.

Definition rows_written (ops : list SqlOp) : Z :=
  foldr (λ df n, Pd.len df + n) 0 (appended ops).

Definition is_replace (op : SqlOp) : bool :=
  match op with SqlReplace _ _ => true | SqlAppend _ _ => false end.

(** The [to_sql] calls of iteration [i] on [chunk]. *)
Definition iter_ops (table_name : string) (ic : Z * DataFrame) : list SqlOp :=
  if ic.1 =? 0 then
    [SqlReplace table_name (Pd.head ic.2 0); SqlAppend table_name ic.2]
  else [SqlAppend table_name ic.2].

(** The [to_sql] calls of a loop over [batches]. *)
Definition batch_ops (table_name : string) (batches : list DataFrame) : list SqlOp :=
  concat (iter_ops table_name <$> Py.enumerate batches).

(** The [to_sql] calls a run may have issued when it stops, normally or
    not: none, or one replace from the empty head of the first batch, the
    append of that batch, and appends only from then on. *)
Definition replace_first (table_name : string) (ops : list SqlOp) : Prop :=
  ops = [] ∨
  ∃ chunk rest,
    ops = SqlReplace table_name (Pd.head chunk 0) :: SqlAppend table_name chunk :: rest ∧
    Forall (λ op, ∃ chunk', op = SqlAppend table_name chunk') rest.

(** The server after a loop over [batches] has gone through. *)
Definition written (table_name : string) (batches : list DataFrame)
    (d : gmap string Table) : gmap string Table :=
  match batches with
  | [] => d
  | chunk :: _ =>
      <[table_name := mkTable (Pd.schema_of chunk) (concat (Pd.rows_of <$> batches))]> d
  end.

(** The progress lines of a loop that went through, from index [i] on. *)
Fixpoint progress_lines {X} (line : Z → X → DataFrame → Line) (i : Z)
    (xs : list X) (batches : list DataFrame) : list Line :=
  match xs, batches with
  | x :: xs', chunk :: batches' => line i x chunk :: progress_lines line (i + 1) xs' batches'
  | _, _ => []
  end.

(** The world after one more printed line. *)
Definition printed (l : Line) (w : World) : World :=
  mkWorld (files w) (stdout w ++ [l]) (engines w) (sql_log w) (db w).

(** The world after a Parquet run that went through: [df] is the frame
    read, [df'] the frame after the datetime conversion. *)
Definition parquet_done (params : Params) (df df' : DataFrame) (w : World) : World :=
  mkWorld (files w)
    (stdout w ++
       [ReadingParquet (file_path params); Loaded (Pd.len df); Columns (Pd.columns df);
        Inserting (table_name params)] ++
       progress_lines (parquet_line df') 0 (Py.range 0 (Pd.len df') 100000)
         (parquet_batches df') ++
       [Completed])
    (engines w ++ [postgresql_url params])
    (sql_log w ++ batch_ops (table_name params) (parquet_batches df'))
    (written (table_name params) (parquet_batches df') (db w)).

(** The world after a CSV run that went through: [df] is the file's
    content, [batches] the chunks after the datetime conversion. *)
Definition csv_done (params : Params) (df : DataFrame) (batches : list DataFrame)
    (w : World) : World :=
  mkWorld (files w)
    (stdout w ++
       [ReadingCsv (file_path params); Columns (Pd.columns df);
        DetectedDatetime (detect_datetime_columns (Pd.columns df));
        Inserting (table_name params)] ++
       progress_lines csv_line 0 (csv_chunks df 100000) batches ++
       [Completed])
    (engines w ++ [postgresql_url params])
    (sql_log w ++ batch_ops (table_name params) batches)
    (written (table_name params) batches (db w)).

(** How a run of [main] that went through went, and the world it leaves. *)
Inductive RanThrough (to_datetime : Series → option Series) (params : Params) (w : World)
  : World → Prop :=
| RanParquet df df' :
    Py.endswith (file_path params) ".parquet" = true →
    files w !! file_path params = Some (ParquetData df) →
    normalize to_datetime (Pd.select_dtypes_datetime64 df) df = Ok df' →
    RanThrough to_datetime params w (parquet_done params df df' (printed DetectedParquet w))
| RanCsv df batches :
    Py.endswith (file_path params) ".parquet" = false →
    Py.endswith (file_path params) ".csv" || Py.endswith (file_path params) ".csv.gz" = true →
    files w !! file_path params = Some (CsvData df) →
    coerced_from to_datetime df batches →
    RanThrough to_datetime params w (csv_done params df batches (printed DetectedCsv w))
| RanUnsupported :
    Py.endswith (file_path params) ".parquet" = false →
    Py.endswith (file_path params) ".csv" || Py.endswith (file_path params) ".csv.gz" = false →
    RanThrough to_datetime params w (printed UnsupportedFormat w).

(** ** The branch [main] takes *)

Definition selects_parquet (to_datetime : Series → option Series) (params : Params) : Prop :=
  ∀ w, main to_datetime params w =
       (print DetectedParquet;; ingest_parquet to_datetime params) w.

Definition selects_csv (to_datetime : Series → option Series) (params : Params) : Prop :=
  ∀ w, main to_datetime params w =
       (print DetectedCsv;; ingest_csv to_datetime params) w.

Definition reports_unsupported (to_datetime : Series → option Series) (params : Params)
  : Prop :=
  ∀ w, main to_datetime params w = (printed UnsupportedFormat w, Ok tt).

(** The last character of a path; it tells the supported suffixes apart. *)
Fixpoint last_char (s : string) : option ascii :=
  match s with
  | EmptyString => None
  | String c EmptyString => Some c
  | String _ s' => last_char s'
  end.

(** ** Sample data *)

(** A [to_datetime] that reads integers as epoch timestamps and rejects
    text. *)
Definition epoch_to_datetime (s : Series) : option Series :=
  vs ← mapM (λ v, match v with
                  | VInt z => Some (VTimestamp z)
                  | VTimestamp ns => Some (VTimestamp ns)
                  | VNull => Some VNull
                  | VFloat _ _ | VStr _ => None
                  end) (values s);
  Some (mkSeries Datetime64 vs).

(** [count_from a n] is the row labels [a, a+1, ..., a+n-1]. *)
Fixpoint count_from (a : Z) (n : nat) : list Z :=
  match n with
  | O => []
  | S n' => a :: count_from (a + 1) n'
  end.

(** A frame of [n] rows with the columns of a taxi-trip extract. *)
Definition trips (n : Z) : DataFrame :=
  let ids := count_from 0 (Z.to_nat n) in
  mkFrame ids
    [("id", mkSeries Int64 (VInt <$> ids));
     ("pickup_datetime", mkSeries Int64 (VInt <$> ids));
     ("fare", mkSeries Int64 (VInt <$> ids))].

(** The command line's defaults, for a table [trips]. *)
Definition sample_params (file_path : string) : Params :=
  mkParams "postgres" "postgres" "localhost" "5433" "ny_taxi" "trips" file_path.

(** A world with one file and, on the server, a table [trips] left by an
    earlier load. *)
Definition sample_world (file_path : string) (content : FileData) : World :=
  mkWorld {[file_path := content]} [] [] []
    {["trips" := mkTable [("old", Object)] [[VStr "x"]; [VStr "y"]]]}.

(** A world without files, tables or history. *)
Definition no_files : World := mkWorld ∅ [] [] [] ∅.

(** ** Runs that stop on an exception *)

(** The batches a loop obtains before the first one that cannot be
    obtained, and the exception that stops it, if any. *)
Fixpoint obtained {X} (prep : X → Result DataFrame) (xs : list X)
  : list DataFrame * option Exn :=
  match xs with
  | [] => ([], None)
  | x :: xs' =>
      match prep x with
      | Ok chunk => (chunk :: (obtained prep xs').1, (obtained prep xs').2)
      | Raised e => ([], Some e)
      end
  end.

(** How a loop ends. *)
Definition outcome (e : option Exn) : Result unit :=
  match e with
  | None => Ok tt
  | Some e => Raised e
  end.

(** The world after a CSV run that read its file, wrote [batches] and ended
    with [e]: the success line is printed only without an exception. *)
Definition csv_after (params : Params) (df : DataFrame) (batches : list DataFrame)
    (e : option Exn) (w : World) : World :=
  mkWorld (files w)
    (stdout w ++
       [ReadingCsv (file_path params); Columns (Pd.columns df);
        DetectedDatetime (detect_datetime_columns (Pd.columns df));
        Inserting (table_name params)] ++
       progress_lines csv_line 0 (csv_chunks df 100000) batches ++
       match e with None => [Completed] | Some _ => [] end)
    (engines w ++ [postgresql_url params])
    (sql_log w ++ batch_ops (table_name params) batches)
    (written (table_name params) batches (db w)).

(** The paths [main] dispatches to an ingestion function. *)
Definition supported (file_path : string) : bool :=
  Py.endswith file_path ".parquet" || Py.endswith file_path ".csv"
  || Py.endswith file_path ".csv.gz".

(** A frame like [trips] whose last row has text for a pickup time. *)
Definition trips_with_text (n : Z) : DataFrame :=
  let ids := count_from 0 (Z.to_nat n) in
  mkFrame (ids ++ [n])
    [("id", mkSeries Int64 (VInt <$> ids ++ [n]));
     ("pickup_datetime", mkSeries Object ((VInt <$> ids) ++ [VStr "n/a"]));
     ("fare", mkSeries Int64 (VInt <$> ids ++ [n]))].

(** ** A run in one piece

    What a run of [main] prints, which engines it creates, which batches it
    writes and how it ends, read off the files alone.  The properties
    section proves that [main] does exactly this from any world. *)

Record Summary := mkSummary {
  s_lines : list Line;
  s_engines : list string;
  s_batches : list DataFrame;
  s_result : Result unit }.

Definition summarize (to_datetime : Series → option Series) (params : Params)
    (fs : gmap string FileData) : Summary :=
  let fp := file_path params in
  let u := postgresql_url params in
  if Py.endswith fp ".parquet" then
    match fs !! fp with
    | Some (ParquetData df) =>
        match normalize to_datetime (Pd.select_dtypes_datetime64 df) df with
        | Ok df' =>
            mkSummary
              ([DetectedParquet; ReadingParquet fp; Loaded (Pd.len df);
                Columns (Pd.columns df); Inserting (table_name params)] ++
               progress_lines (parquet_line df') 0 (Py.range 0 (Pd.len df') 100000)
                 (parquet_batches df') ++
               [Completed])
              [u] (parquet_batches df') (Ok tt)
        | Raised e =>
            mkSummary
              [DetectedParquet; ReadingParquet fp; Loaded (Pd.len df);
               Columns (Pd.columns df)]
              [u] [] (Raised e)
        end
    | Some (CsvData _) =>
        mkSummary [DetectedParquet; ReadingParquet fp] [u] [] (Raised (ParserError fp))
    | None =>
        mkSummary [DetectedParquet; ReadingParquet fp] [u] []
          (Raised (FileNotFoundError fp))
    end
  else if Py.endswith fp ".csv" || Py.endswith fp ".csv.gz" then
    match fs !! fp with
    | Some (CsvData df) =>
        let o := obtained (coerce to_datetime (detect_datetime_columns (Pd.columns df)))
                   (csv_chunks df 100000) in
        mkSummary
          ([DetectedCsv; ReadingCsv fp; Columns (Pd.columns df);
            DetectedDatetime (detect_datetime_columns (Pd.columns df));
            Inserting (table_name params)] ++
           progress_lines csv_line 0 (csv_chunks df 100000) o.1 ++
           match o.2 with None => [Completed] | Some _ => [] end)
          [u] o.1 (outcome o.2)
    | Some (ParquetData _) =>
        mkSummary [DetectedCsv; ReadingCsv fp] [u] [] (Raised (ParserError fp))
    | None =>
        mkSummary [DetectedCsv; ReadingCsv fp] [u] [] (Raised (FileNotFoundError fp))
    end
  else mkSummary [UnsupportedFormat] [] [] (Ok tt).

(** The world a run with summary [s] leaves. *)
Definition after (table_name : string) (s : Summary) (w : World) : World :=
  mkWorld (files w) (stdout w ++ s_lines s) (engines w ++ s_engines s)
    (sql_log w ++ batch_ops table_name (s_batches s))
    (written table_name (s_batches s) (db w)).



(** * Properties *)

(** ** Facts about [endswith] *)

Section Strings.

Implicit Types s pre suffix : string.

Lemma string_length_app s1 s2 :
  String.length (s1 +:+ s2) = (String.length s1 + String.length s2)%nat.
Proof. induction s1 as [|c s1 IH]; simpl; [done | by rewrite IH]. Qed.

Lemma substring_all s : String.substring 0 (String.length s) s = s.
Proof. induction s as [|c s IH]; simpl; [done | by rewrite IH]. Qed.

Lemma substring_app_drop pre suffix m :
  String.substring (String.length pre) m (pre +:+ suffix) = String.substring 0 m suffix.
Proof. induction pre as [|c pre IH]; simpl; done. Qed.

Lemma substring_split s k m :
  (k + m = String.length s)%nat →
  s = String.substring 0 k s +:+ String.substring k m s.
Proof.
  revert s. induction k as [|k IH]; intros s Hlen.
  - simpl in Hlen. subst m. rewrite substring_all. by destruct s.
  - destruct s as [|c s]; simpl in Hlen; [lia |].
    change (String c s = String c (String.substring 0 k s +:+ String.substring k m s)).
    f_equal. apply IH. lia.
Qed.

Lemma endswith_app pre suffix : Py.endswith (pre +:+ suffix) suffix = true.
Proof.
  unfold Py.endswith. rewrite string_length_app.
  apply andb_true_intro. split.
  - apply Nat.leb_le. lia.
  - replace (String.length pre + String.length suffix - String.length suffix)%nat
      with (String.length pre) by lia.
    rewrite substring_app_drop, substring_all. apply String.eqb_refl.
Qed.

Lemma endswith_spec s suffix :
  Py.endswith s suffix = true ↔ ∃ pre, s = pre +:+ suffix.
Proof.
  split.
  - unfold Py.endswith. intros [Hle Heq]%andb_prop.
    apply Nat.leb_le in Hle. apply String.eqb_eq in Heq.
    exists (String.substring 0 (String.length s - String.length suffix) s).
    rewrite <- Heq at 2. apply substring_split. lia.
  - intros [pre ->]. apply endswith_app.
Qed.

End Strings.

Lemma last_char_app pre suffix :
  suffix ≠ EmptyString → last_char (pre +:+ suffix) = last_char suffix.
Proof.
  intros Hne. induction pre as [|c pre IH]; [done |].
  change (last_char (String c (pre +:+ suffix)) = last_char suffix).
  simpl. rewrite IH. destruct pre, suffix; done.
Qed.

Lemma endswith_last_char s suffix :
  suffix ≠ EmptyString → Py.endswith s suffix = true → last_char s = last_char suffix.
Proof. intros Hne [pre ->]%endswith_spec. by apply last_char_app. Qed.

Lemma endswith_parquet_not_csv s :
  Py.endswith s ".parquet" = true →
  Py.endswith s ".csv" || Py.endswith s ".csv.gz" = false.
Proof.
  intros H%endswith_last_char; [|done].
  apply orb_false_intro; apply not_true_is_false;
    intros H'%endswith_last_char; try done; rewrite H in H'; discriminate.
Qed.

(** ** Running computations *)

Lemma bind_run {A B} (m : M A) (f : A → M B) w :
  (m ≫= f) w =
  match m w with
  | (w', Ok a) => f a w'
  | (w', Raised e) => (w', Raised e)
  end.
Proof. reflexivity. Qed.

Lemma bind_lift {A B} (r : Result A) (f : A → M B) w :
  (lift r ≫= f) w = match r with Ok a => f a w | Raised e => (w, Raised e) end.
Proof. reflexivity. Qed.

Lemma bind_ok_inv {A B} (m : M A) (f : A → M B) w w' b :
  (m ≫= f) w = (w', Ok b) → ∃ a w1, m w = (w1, Ok a) ∧ f a w1 = (w', Ok b).
Proof.
  rewrite bind_run. destruct (m w) as [w1 [a|e]]; [eauto | discriminate].
Qed.

Lemma for_each_ext {A} (xs : list A) (f g : A → M unit) :
  (∀ x w, f x w = g x w) → ∀ w, for_each xs f w = for_each xs g w.
Proof.
  intros Hfg. induction xs as [|x xs IH]; intros w; [done |].
  simpl. rewrite !bind_run, Hfg. destruct (g x w) as [w1 [[]|e]]; [apply IH | done].
Qed.

(** ** Slices and ranges *)

Section Slices.

Context {A : Type}.
Implicit Types l : list A.

Lemma slice_empty a b l : b ≤ a → Py.slice a b l = [].
Proof.
  intros H. unfold Py.slice. replace (Z.to_nat (b - a)) with O by lia. apply take_0.
Qed.

Lemma slice_app a b c l :
  0 ≤ a → a ≤ b → b ≤ c → Py.slice a b l ++ Py.slice b c l = Py.slice a c l.
Proof.
  intros Ha Hab Hbc. unfold Py.slice.
  replace (Z.to_nat b) with (Z.to_nat a + Z.to_nat (b - a))%nat by lia.
  rewrite <- drop_drop, take_take_drop. f_equal. lia.
Qed.

Lemma slice_all l : Py.slice 0 (Z.of_nat (length l)) l = l.
Proof.
  unfold Py.slice. simpl. rewrite drop_0. apply take_ge. lia.
Qed.

Lemma length_slice a b l :
  0 ≤ a → a ≤ b → b ≤ Z.of_nat (length l) → Z.of_nat (length (Py.slice a b l)) = b - a.
Proof.
  intros Ha Hab Hb. unfold Py.slice. rewrite length_take, length_drop. lia.
Qed.

(** The slices taken at the multiples of [c], up to the [j+m]-th. *)
Lemma concat_slices_from (c : Z) l (m j : nat) :
  0 < c →
  let n := Z.of_nat (length l) in
  concat ((λ k : nat, Py.slice (Z.of_nat k * c) (Z.min (Z.of_nat k * c + c) n) l)
            <$> seq j m)
  = Py.slice (Z.of_nat j * c) (Z.min (Z.of_nat (j + m) * c) n) l.
Proof.
  intros Hc n. revert j. induction m as [|m IH]; intros j.
  - simpl. symmetry. apply slice_empty. lia.
  - simpl. rewrite IH.
    replace (Z.of_nat (S j + m)) with (Z.of_nat (j + S m)) by lia.
    destruct (decide (Z.of_nat j * c + c ≤ n)) as [Hle|Hgt].
    + replace (Z.of_nat (S j) * c) with (Z.of_nat j * c + c) by lia.
      rewrite Z.min_l by lia. apply slice_app; nia.
    + rewrite (slice_empty (Z.of_nat (S j) * c)) by nia.
      rewrite app_nil_r. f_equal. nia.
Qed.

End Slices.

Lemma range_len_pos n c : 0 < c → 0 ≤ n → Py.range_len 0 n c = (n + c - 1) `div` c.
Proof.
  intros Hc Hn. unfold Py.range_len.
  destruct (Z.ltb_spec 0 c); [|lia].
  destruct (Z.ltb_spec 0 n).
  - replace (n + c - 1) with (n - 0 - 1 + 1 * c) by lia. by rewrite Z.div_add by lia.
  - replace n with 0 by lia. simpl. symmetry. apply Z.div_small. lia.
Qed.

Lemma range_from_zero n c :
  Py.range 0 n c = (λ k : nat, Z.of_nat k * c) <$> seq 0 (Z.to_nat (Py.range_len 0 n c)).
Proof. reflexivity. Qed.

(** Batches of [c] cover a list exactly once and in order. *)
Lemma concat_slices (c : Z) {A} (l : list A) :
  0 < c →
  let n := Z.of_nat (length l) in
  concat ((λ a, Py.slice a (Z.min (a + c) n) l) <$> Py.range 0 n c) = l.
Proof.
  intros Hc n. rewrite range_from_zero, <- list_fmap_compose.
  pose proof (concat_slices_from c l (Z.to_nat (Py.range_len 0 n c)) 0 Hc) as H.
  simpl in H. unfold compose. fold n in H. rewrite H.
  rewrite range_len_pos by lia.
  assert (n ≤ (n + c - 1) `div` c * c).
  { pose proof (Z.div_mod (n + c - 1) c ltac:(lia)).
    pose proof (Z.mod_pos_bound (n + c - 1) c Hc). lia. }
  rewrite Z.min_r by (rewrite Z2Nat.id by (apply Z.div_pos; lia); lia).
  apply slice_all.
Qed.

(** An exact multiple of the batch size gives exactly that many batches,
    all of them full. *)
Lemma range_exact (k c : Z) :
  0 < c → 0 ≤ k →
  Py.range 0 (k * c) c = (λ j : nat, Z.of_nat j * c) <$> seq 0 (Z.to_nat k).
Proof.
  intros Hc Hk. rewrite range_from_zero, range_len_pos by nia.
  do 3 f_equal.
  replace (k * c + c - 1) with ((c - 1) + k * c) by lia.
  rewrite Z.div_add, Z.div_small; lia.
Qed.

(** ** Frames *)

Section Frames.

Implicit Types (df chunk : DataFrame) (col : string) (s : Series).

Lemma len_nonneg df : 0 ≤ Pd.len df.
Proof. unfold Pd.len. lia. Qed.

Lemma columns_iloc df a b : Pd.columns (Pd.iloc df a b) = Pd.columns df.
Proof.
  unfold Pd.columns, Pd.iloc. simpl. rewrite <- list_fmap_compose.
  apply list_fmap_ext. by intros _ [??] _.
Qed.

Lemma schema_of_iloc df a b : Pd.schema_of (Pd.iloc df a b) = Pd.schema_of df.
Proof.
  unfold Pd.schema_of, Pd.iloc. simpl. rewrite <- list_fmap_compose.
  apply list_fmap_ext. by intros _ [??] _.
Qed.

Lemma schema_of_columns df : (Pd.schema_of df).*1 = Pd.columns df.
Proof.
  unfold Pd.schema_of, Pd.columns. rewrite <- list_fmap_compose.
  apply list_fmap_ext. by intros _ [??] _.
Qed.

Lemma index_head_0 df : index (Pd.head df 0) = [].
Proof. reflexivity. Qed.

Lemma len_head_0 df : Pd.len (Pd.head df 0) = 0.
Proof. reflexivity. Qed.

Lemma rows_of_head_0 df : Pd.rows_of (Pd.head df 0) = [].
Proof. reflexivity. Qed.

Lemma length_tuples n cols : length (Pd.tuples n cols) = n.
Proof. revert cols. induction n as [|n IH]; intros cols; simpl; [done | by rewrite IH]. Qed.


Lemma len_iloc df a b :
  0 ≤ a → a ≤ b → b ≤ Pd.len df → Pd.len (Pd.iloc df a b) = b - a.
Proof. intros. unfold Pd.len. simpl. by apply length_slice. Qed.

Lemma index_setitem df col s : index (Pd.setitem df col s) = index df.
Proof. reflexivity. Qed.

Lemma len_setitem df col s : Pd.len (Pd.setitem df col s) = Pd.len df.
Proof. reflexivity. Qed.

Lemma getitem_cols_Some cols col :
  col ∈ cols.*1 ↔ is_Some (Pd.getitem_cols cols col).
Proof.
  induction cols as [|[name s] cols IH]; simpl.
  - split; [intros ?%elem_of_nil | intros [? ?]]; done.
  - rewrite elem_of_cons. destruct (decide (name = col)) as [->|Hne].
    + split; eauto.
    + rewrite <- IH. split; [intros [?|?]; [congruence | done] | by right].
Qed.

Lemma getitem_Some df col : col ∈ Pd.columns df ↔ is_Some (Pd.getitem df col).
Proof. apply getitem_cols_Some. Qed.

Lemma setitem_cols_names cols col s :
  col ∈ cols.*1 → (Pd.setitem_cols cols col s).*1 = cols.*1.
Proof.
  induction cols as [|[name s0] cols IH]; simpl.
  - by intros ?%elem_of_nil.
  - intros Hin. destruct (decide (name = col)) as [->|Hne]; [done |].
    simpl. f_equal. apply IH. by apply elem_of_cons in Hin as [?|?]; [congruence |].
Qed.

Lemma columns_setitem df col s :
  col ∈ Pd.columns df → Pd.columns (Pd.setitem df col s) = Pd.columns df.
Proof. apply setitem_cols_names. Qed.

Lemma getitem_cols_setitem_eq cols col s :
  Pd.getitem_cols (Pd.setitem_cols cols col s) col = Some s.
Proof.
  induction cols as [|[name s0] cols IH]; simpl.
  - by rewrite decide_True.
  - destruct (decide (name = col)) as [->|Hne]; simpl.
    + by rewrite decide_True.
    + by rewrite decide_False.
Qed.

Lemma getitem_cols_setitem_ne cols col col' s :
  col ≠ col' →
  Pd.getitem_cols (Pd.setitem_cols cols col s) col' = Pd.getitem_cols cols col'.
Proof.
  intros Hne. induction cols as [|[name s0] cols IH]; simpl.
  - by rewrite decide_False.
  - destruct (decide (name = col)) as [->|Hne']; simpl.
    + by rewrite !decide_False.
    + destruct (decide (name = col')); done.
Qed.

Lemma getitem_setitem_eq df col s : Pd.getitem (Pd.setitem df col s) col = Some s.
Proof. apply getitem_cols_setitem_eq. Qed.

Lemma getitem_setitem_ne df col col' s :
  col ≠ col' → Pd.getitem (Pd.setitem df col s) col' = Pd.getitem df col'.
Proof. apply getitem_cols_setitem_ne. Qed.

End Frames.

(** The Parquet batches cover the frame's rows once, in order, and share
    its columns. *)
Lemma parquet_batches_index df : concat (index <$> parquet_batches df) = index df.
Proof.
  unfold parquet_batches. rewrite <- list_fmap_compose.
  apply (concat_slices 100000 (index df)). lia.
Qed.

Lemma parquet_batches_columns df :
  Forall (λ chunk, Pd.columns chunk = Pd.columns df) (parquet_batches df).
Proof.
  unfold parquet_batches. apply Forall_fmap, Forall_forall.
  intros a _. apply columns_iloc.
Qed.

Lemma csv_chunks_index df : concat (index <$> csv_chunks df 100000) = index df.
Proof.
  unfold csv_chunks. destruct (Z.eqb_spec (Pd.len df) 0) as [H0|Hn0].
  - simpl. apply app_nil_r.
  - rewrite <- list_fmap_compose. apply (concat_slices 100000 (index df)). lia.
Qed.

Lemma csv_chunks_columns df :
  Forall (λ chunk, Pd.columns chunk = Pd.columns df) (csv_chunks df 100000).
Proof.
  unfold csv_chunks. destruct (Pd.len df =? 0).
  - by apply Forall_singleton.
  - apply Forall_fmap, Forall_forall. intros a _. apply columns_iloc.
Qed.

(** ** One [to_sql], one batch *)

Section Writes.

Implicit Types (w : World) (chunk : DataFrame) (t : Table).
Variables (T : string) (engine : Engine).

Lemma world_eta w : mkWorld (files w) (stdout w) (engines w) (sql_log w) (db w) = w.
Proof. by destruct w. Qed.

Lemma to_sql_append_ok chunk w t :
  db w !! T = Some t → (schema t).*1 = Pd.columns chunk →
  to_sql chunk T engine Append w =
    (mkWorld (files w) (stdout w) (engines w) (sql_log w ++ [SqlAppend T chunk])
       (<[T := mkTable (schema t) (rows t ++ Pd.rows_of chunk)]> (db w)), Ok tt).
Proof.
  intros Ht Hcols. unfold to_sql. simpl. rewrite Ht. by rewrite decide_True.
Qed.

Lemma to_sql_append_mismatch chunk w t :
  db w !! T = Some t → (schema t).*1 ≠ Pd.columns chunk →
  to_sql chunk T engine Append w =
    (mkWorld (files w) (stdout w) (engines w) (sql_log w ++ [SqlAppend T chunk]) (db w),
     Raised (SchemaMismatch T)).
Proof.
  intros Ht Hcols. unfold to_sql. simpl. rewrite Ht. by rewrite decide_False.
Qed.

Lemma to_sql_replace chunk w :
  to_sql chunk T engine Replace w =
    (mkWorld (files w) (stdout w) (engines w) (sql_log w ++ [SqlReplace T chunk])
       (<[T := mkTable (Pd.schema_of chunk) (Pd.rows_of chunk)]> (db w)), Ok tt).
Proof. reflexivity. Qed.

Lemma write_batch_first chunk w :
  write_batch T engine 0 chunk w =
    (mkWorld (files w) (stdout w) (engines w)
       (sql_log w ++ [SqlReplace T (Pd.head chunk 0); SqlAppend T chunk])
       (<[T := mkTable (Pd.schema_of chunk) (Pd.rows_of chunk)]> (db w)), Ok tt).
Proof.
  unfold write_batch. rewrite Z.eqb_refl, bind_run, to_sql_replace.
  erewrite to_sql_append_ok; cycle 1.
  - apply lookup_insert_eq.
  - cbn [schema]. unfold Pd.head. by rewrite schema_of_iloc, schema_of_columns.
  - cbn [files stdout engines sql_log db schema rows].
    rewrite insert_insert_eq, <- app_assoc. unfold Pd.head.
    by rewrite schema_of_iloc.
Qed.

Lemma write_batch_next i chunk w :
  i ≠ 0 → write_batch T engine i chunk w = to_sql chunk T engine Append w.
Proof. intros Hi. unfold write_batch. by destruct (Z.eqb_spec i 0). Qed.

Lemma iter_ops_tail i (batches : list DataFrame) :
  0 < i → concat (iter_ops T <$> Py.enumerate_from i batches) = SqlAppend T <$> batches.
Proof.
  revert i. induction batches as [|chunk batches IH]; intros i Hi; [done |].
  simpl. rewrite IH by lia. unfold iter_ops. simpl.
  by destruct (Z.eqb_spec i 0); [lia |].
Qed.

Lemma batch_ops_cons chunk (batches : list DataFrame) :
  batch_ops T (chunk :: batches) =
    SqlReplace T (Pd.head chunk 0) :: SqlAppend T chunk :: (SqlAppend T <$> batches).
Proof. unfold batch_ops, Py.enumerate. simpl. by rewrite iter_ops_tail. Qed.

End Writes.

(** ** The batch loop *)

Section Loop.

Context {X : Type}.
Variables (prep : X → Result DataFrame) (line : Z → X → DataFrame → Line).
Variables (T : string) (engine : Engine).

Implicit Types (w : World) (xs : list X) (batches : list DataFrame) (t : Table).

Local Abbreviation body := (loop_body prep line T engine).

Lemma loop_body_run i x w :
  body (i, x) w =
  match prep x with
  | Ok chunk =>
      match write_batch T engine i chunk w with
      | (w1, Ok _) => print (line i x chunk) w1
      | (w1, Raised e) => (w1, Raised e)
      end
  | Raised e => (w, Raised e)
  end.
Proof. unfold loop_body. rewrite bind_lift. by destruct (prep x). Qed.

(** After batch 0 the table exists; every later batch whose columns are
    the table's is appended to it. *)
Lemma loop_tail_run xs batches i w t :
  0 < i → db w !! T = Some t →
  Forall2 (λ x chunk, prep x = Ok chunk) xs batches →
  Forall (λ chunk, Pd.columns chunk = (schema t).*1) batches →
  for_each (Py.enumerate_from i xs) body w =
    (mkWorld (files w) (stdout w ++ progress_lines line i xs batches) (engines w)
       (sql_log w ++ (SqlAppend T <$> batches))
       (<[T := mkTable (schema t) (rows t ++ concat (Pd.rows_of <$> batches))]> (db w)),
     Ok tt).
Proof.
  intros Hi Ht Hprep. revert i w t Hi Ht.
  induction Hprep as [|x chunk xs batches Hx _ IH]; intros i w t Hi Ht Hcols.
  - simpl. rewrite !app_nil_r. destruct t; simpl. rewrite insert_id by done.
    by rewrite world_eta.
  - apply Forall_cons in Hcols as [Hc Hcols].
    cbn [Py.enumerate_from for_each]. rewrite bind_run, loop_body_run, Hx.
    rewrite write_batch_next by lia.
    rewrite (to_sql_append_ok T engine chunk w t) by done.
    unfold print at 1. cbn [files stdout engines sql_log db].
    rewrite (IH (i + 1) _ (mkTable (schema t) (rows t ++ Pd.rows_of chunk)));
      [| lia | apply lookup_insert_eq | done].
    cbn [files stdout engines sql_log db schema rows progress_lines].
    rewrite insert_insert_eq, <- !app_assoc. simpl. done.
Qed.

Lemma loop_tail_ok xs i w w' t :
  0 < i → db w !! T = Some t →
  for_each (Py.enumerate_from i xs) body w = (w', Ok tt) →
  ∃ batches,
    Forall2 (λ x chunk, prep x = Ok chunk) xs batches ∧
    Forall (λ chunk, Pd.columns chunk = (schema t).*1) batches.
Proof.
  revert i w t. induction xs as [|x xs IH]; intros i w t Hi Ht Hrun.
  - exists []. split; constructor.
  - cbn [Py.enumerate_from for_each] in Hrun.
    rewrite bind_run, loop_body_run in Hrun.
    destruct (prep x) as [chunk|e] eqn:Hx; [|discriminate].
    rewrite write_batch_next in Hrun by lia.
    destruct (decide ((schema t).*1 = Pd.columns chunk)) as [Hc|Hc].
    + rewrite (to_sql_append_ok T engine chunk w t) in Hrun by done.
      unfold print at 1 in Hrun. cbn [files stdout engines sql_log db] in Hrun.
      apply (IH _ _ (mkTable (schema t) (rows t ++ Pd.rows_of chunk))) in Hrun
        as (batches & Hprep & Hcols); [| lia | apply lookup_insert_eq].
      exists (chunk :: batches). split; [by constructor | by constructor].
    + rewrite (to_sql_append_mismatch T engine chunk w t) in Hrun by done.
      discriminate.
Qed.

(** A loop whose batches can all be obtained and share their columns goes
    through: one replace from the first batch's empty head, then one
    append per batch. *)
Lemma loop_run xs batches w :
  Forall2 (λ x chunk, prep x = Ok chunk) xs batches → uniform batches →
  for_each (Py.enumerate xs) body w =
    (mkWorld (files w) (stdout w ++ progress_lines line 0 xs batches) (engines w)
       (sql_log w ++ batch_ops T batches) (written T batches (db w)),
     Ok tt).
Proof.
  intros Hprep Huni. destruct Hprep as [|x chunk xs batches Hx Hprep].
  - simpl. unfold batch_ops. simpl. by rewrite !app_nil_r, world_eta.
  - specialize (Huni chunk eq_refl). apply Forall_cons in Huni as [_ Huni].
    unfold Py.enumerate. cbn [Py.enumerate_from for_each].
    rewrite bind_run, loop_body_run, Hx, write_batch_first.
    unfold print at 1. cbn [files stdout engines sql_log db].
    rewrite (loop_tail_run xs batches (0 + 1) _
               (mkTable (Pd.schema_of chunk) (Pd.rows_of chunk)));
      [| lia | apply lookup_insert_eq | done |].
    + cbn [files stdout engines sql_log db schema rows progress_lines written].
      rewrite insert_insert_eq, batch_ops_cons, <- !app_assoc. done.
    + cbn [schema]. by rewrite schema_of_columns.
Qed.

(** Conversely, a loop that went through obtained every batch, and the
    batches share their columns. *)
Lemma loop_ok xs w w' :
  for_each (Py.enumerate xs) body w = (w', Ok tt) →
  ∃ batches,
    Forall2 (λ x chunk, prep x = Ok chunk) xs batches ∧ uniform batches.
Proof.
  destruct xs as [|x xs]; intros Hrun.
  - exists []. split; [constructor | by intros ? [=]].
  - unfold Py.enumerate in Hrun. cbn [Py.enumerate_from for_each] in Hrun.
    rewrite bind_run, loop_body_run in Hrun.
    destruct (prep x) as [chunk|e] eqn:Hx; [|discriminate].
    rewrite write_batch_first in Hrun. unfold print at 1 in Hrun.
    cbn [files stdout engines sql_log db] in Hrun.
    apply (loop_tail_ok _ _ _ _ (mkTable (Pd.schema_of chunk) (Pd.rows_of chunk)))
      in Hrun as (batches & Hprep & Hcols); [| lia | apply lookup_insert_eq].
    exists (chunk :: batches). split; [by constructor |].
    intros ? [= <-]. constructor; [done |].
    cbn [schema] in Hcols. by rewrite schema_of_columns in Hcols.
Qed.

End Loop.

(** ** The tuples of a slice *)

Section Tuples.

Implicit Types (cols : list (list Value)) (df : DataFrame).





End Tuples.

(** ** The conversion loops and the two ingestion paths *)

Section Runs.

Variable to_datetime : Series → option Series.
Implicit Types (w : World) (df chunk : DataFrame) (params : Params).

Lemma convert_column_run df col w :
  (s ← df_getitem df col; s' ← pd_to_datetime to_datetime s; mret (Pd.setitem df col s')) w
  = (w, convert_column to_datetime df col).
Proof.
  unfold convert_column, df_getitem, pd_to_datetime. rewrite bind_run.
  destruct (Pd.getitem df col) as [s|]; [|done].
  cbn. rewrite bind_run. by destruct (to_datetime s).
Qed.

Lemma normalize_run cols df w :
  fold_each cols
    (λ df col, s ← df_getitem df col; s' ← pd_to_datetime to_datetime s;
               mret (Pd.setitem df col s')) df w
  = (w, normalize to_datetime cols df).
Proof.
  revert df. induction cols as [|col cols IH]; intros df; [done |].
  cbn [fold_each normalize]. rewrite bind_run, convert_column_run.
  destruct (convert_column to_datetime df col); [apply IH | done].
Qed.

Lemma coerce_run cols chunk w :
  fold_each cols
    (λ chunk col,
       if decide (col ∈ Pd.columns chunk) then
         s ← df_getitem chunk col; s' ← pd_to_datetime to_datetime s;
         mret (Pd.setitem chunk col s')
       else mret chunk) chunk w
  = (w, coerce to_datetime cols chunk).
Proof.
  revert chunk. induction cols as [|col cols IH]; intros chunk; [done |].
  cbn [fold_each coerce]. rewrite bind_run.
  destruct (decide (col ∈ Pd.columns chunk)).
  - rewrite convert_column_run.
    destruct (convert_column to_datetime chunk col); [apply IH | done].
  - apply IH.
Qed.

Lemma detect_run cols acc w :
  fold_each cols
    (λ datetime_columns col,
       if is_datetime_name col then mret (datetime_columns ++ [col])
       else mret datetime_columns) acc w
  = (w, Ok (acc ++ detect_datetime_columns cols)).
Proof.
  revert acc. induction cols as [|col cols IH]; intros acc.
  - simpl. by rewrite app_nil_r.
  - cbn [fold_each]. rewrite bind_run. unfold detect_datetime_columns.
    rewrite filter_cons. destruct (is_datetime_name col) eqn:Hcol.
    + rewrite decide_True by done. cbn. rewrite IH.
      by rewrite <- app_assoc.
    + rewrite decide_False by done. cbn. apply IH.
Qed.

(** A conversion keeps the row labels and the column names. *)
Lemma convert_column_shape df col df' :
  convert_column to_datetime df col = Ok df' →
  index df' = index df ∧ Pd.columns df' = Pd.columns df.
Proof.
  unfold convert_column. destruct (Pd.getitem df col) as [s|] eqn:Hs; [|done].
  destruct (to_datetime s) as [s'|]; [|done]. intros [= <-].
  split; [done |]. apply columns_setitem, getitem_Some. by rewrite Hs.
Qed.

Lemma normalize_shape cols df df' :
  normalize to_datetime cols df = Ok df' →
  index df' = index df ∧ Pd.columns df' = Pd.columns df.
Proof.
  revert df. induction cols as [|col cols IH]; intros df; simpl.
  - by intros [= <-].
  - destruct (convert_column to_datetime df col) as [df1|] eqn:H1; [|done].
    intros [-> ->]%IH. by apply convert_column_shape in H1.
Qed.

Lemma coerce_shape cols chunk chunk' :
  coerce to_datetime cols chunk = Ok chunk' →
  index chunk' = index chunk ∧ Pd.columns chunk' = Pd.columns chunk.
Proof.
  revert chunk. induction cols as [|col cols IH]; intros chunk; simpl.
  - by intros [= <-].
  - destruct (decide (col ∈ Pd.columns chunk)); [|apply IH].
    destruct (convert_column to_datetime chunk col) as [df1|] eqn:H1; [|done].
    intros [-> ->]%IH. by apply convert_column_shape in H1.
Qed.

Lemma bind_create_engine {B} u (f : Engine → M B) w :
  (create_engine u ≫= f) w =
    f (mkEngine u) (mkWorld (files w) (stdout w) (engines w ++ [u]) (sql_log w) (db w)).
Proof. reflexivity. Qed.

Lemma bind_print {B} l (f : unit → M B) w :
  (print l ≫= f) w =
    f tt (mkWorld (files w) (stdout w ++ [l]) (engines w) (sql_log w) (db w)).
Proof. reflexivity. Qed.

Lemma parquet_batches_prep df :
  Forall2 (λ a chunk, Ok (Pd.iloc df a (Z.min (a + 100000) (Pd.len df))) = Ok chunk)
    (Py.range 0 (Pd.len df) 100000) (parquet_batches df).
Proof.
  unfold parquet_batches. induction (Py.range 0 (Pd.len df) 100000); constructor; done.
Qed.

Lemma parquet_batches_uniform df : uniform (parquet_batches df).
Proof.
  intros chunk Hhd. pose proof (parquet_batches_columns df) as Hall.
  assert (Pd.columns chunk = Pd.columns df) as ->; [|done].
  destruct (parquet_batches df); simplify_eq/=. by apply Forall_cons in Hall as [? _].
Qed.

Lemma ingest_parquet_loop df params engine w :
  for_each (Py.enumerate (Py.range 0 (Pd.len df) 100000))
    (λ '(i, chunk_start),
       let chunk_end := Z.min (chunk_start + 100000) (Pd.len df) in
       let chunk := Pd.iloc df chunk_start chunk_end in
       (if i =? 0 then
          to_sql (Pd.head chunk 0) (table_name params) engine Replace;;
          to_sql chunk (table_name params) engine Append
        else
          to_sql chunk (table_name params) engine Append);;
       print (InsertedParquet (i + 1) (Pd.len df `div` 100000 + 1) chunk_end (Pd.len df))) w
  = (mkWorld (files w)
       (stdout w ++ progress_lines (parquet_line df) 0 (Py.range 0 (Pd.len df) 100000)
                      (parquet_batches df))
       (engines w) (sql_log w ++ batch_ops (table_name params) (parquet_batches df))
       (written (table_name params) (parquet_batches df) (db w)), Ok tt).
Proof.
  rewrite <- (loop_run (λ a, Ok (Pd.iloc df a (Z.min (a + 100000) (Pd.len df))))
               (parquet_line df) (table_name params) engine);
    [| apply parquet_batches_prep | apply parquet_batches_uniform].
  apply for_each_ext. by intros [i a] w1.
Qed.

Lemma ingest_parquet_run params df w :
  files w !! file_path params = Some (ParquetData df) →
  ingest_parquet to_datetime params w =
  match normalize to_datetime (Pd.select_dtypes_datetime64 df) df with
  | Ok df' => (parquet_done params df df' w, Ok tt)
  | Raised e =>
      (mkWorld (files w)
         (stdout w ++ [ReadingParquet (file_path params); Loaded (Pd.len df);
                       Columns (Pd.columns df)])
         (engines w ++ [postgresql_url params]) (sql_log w) (db w), Raised e)
  end.
Proof.
  intros Hfile. unfold ingest_parquet.
  rewrite bind_create_engine, bind_print, bind_run.
  unfold read_parquet at 1. cbn [files stdout engines sql_log db]. rewrite Hfile.
  rewrite !bind_print, bind_run, normalize_run. cbn [files stdout engines sql_log db].
  destruct (normalize to_datetime (Pd.select_dtypes_datetime64 df) df) as [df'|e].
  - rewrite bind_print, bind_run, ingest_parquet_loop.
    unfold print, parquet_done. cbn [files stdout engines sql_log db].
    by rewrite <- !app_assoc.
  - by rewrite <- !app_assoc.
Qed.

Lemma ingest_parquet_inv params w w' :
  ingest_parquet to_datetime params w = (w', Ok tt) →
  ∃ df df',
    files w !! file_path params = Some (ParquetData df) ∧
    normalize to_datetime (Pd.select_dtypes_datetime64 df) df = Ok df' ∧
    w' = parquet_done params df df' w.
Proof.
  destruct (files w !! file_path params) as [[df|df]|] eqn:Hfile.
  - rewrite (ingest_parquet_run params df w Hfile).
    destruct (normalize _ _ df) as [df'|e] eqn:Hn; [|discriminate].
    intros [= <-]. by exists df, df'.
  - unfold ingest_parquet.
    rewrite bind_create_engine, bind_print, bind_run.
    unfold read_parquet at 1. cbn [files]. by rewrite Hfile.
  - unfold ingest_parquet.
    rewrite bind_create_engine, bind_print, bind_run.
    unfold read_parquet at 1. cbn [files]. by rewrite Hfile.
Qed.

Lemma coerced_columns df batches :
  coerced_from to_datetime df batches → Forall (λ chunk, Pd.columns chunk = Pd.columns df) batches.
Proof.
  intros Hco. pose proof (csv_chunks_columns df) as Hraw. unfold coerced_from in Hco.
  induction Hco as [|raw c raws cs Hc _ IH]; [constructor |].
  apply Forall_cons in Hraw as [Hr Hraw]. constructor; [|by apply IH].
  by apply coerce_shape in Hc as [_ ->].
Qed.

Lemma coerced_index df batches :
  coerced_from to_datetime df batches → index <$> batches = index <$> csv_chunks df 100000.
Proof.
  unfold coerced_from. induction 1 as [|raw c raws cs Hc _ IH]; [done |].
  rewrite !fmap_cons, IH. by apply coerce_shape in Hc as [-> _].
Qed.

Lemma coerced_uniform df batches : coerced_from to_datetime df batches → uniform batches.
Proof.
  intros Hall%coerced_columns chunk Hhd.
  assert (Pd.columns chunk = Pd.columns df) as ->; [|done].
  destruct batches; simplify_eq/=. by apply Forall_cons in Hall as [? _].
Qed.

Lemma ingest_csv_loop cols (chunks : list DataFrame) params engine w :
  for_each (Py.enumerate chunks)
    (λ '(i, chunk),
       chunk ← fold_each cols
         (λ chunk col,
            if decide (col ∈ Pd.columns chunk) then
              s ← df_getitem chunk col; s' ← pd_to_datetime to_datetime s;
              mret (Pd.setitem chunk col s')
            else mret chunk)
         chunk;
       (if i =? 0 then
          to_sql (Pd.head chunk 0) (table_name params) engine Replace;;
          to_sql chunk (table_name params) engine Append
        else
          to_sql chunk (table_name params) engine Append);;
       print (InsertedCsv (i + 1) (Pd.len chunk))) w
  = for_each (Py.enumerate chunks)
      (loop_body (coerce to_datetime cols) csv_line (table_name params) engine) w.
Proof.
  apply for_each_ext. intros [i raw] w1. unfold loop_body.
  by rewrite bind_run, coerce_run, bind_lift.
Qed.

Lemma ingest_csv_head params df w :
  files w !! file_path params = Some (CsvData df) →
  ingest_csv to_datetime params w =
    (for_each (Py.enumerate (csv_chunks df 100000))
       (loop_body (coerce to_datetime (detect_datetime_columns (Pd.columns df)))
          csv_line (table_name params) (mkEngine (postgresql_url params)));;
     print Completed)
    (mkWorld (files w)
       (stdout w ++ [ReadingCsv (file_path params); Columns (Pd.columns df);
                     DetectedDatetime (detect_datetime_columns (Pd.columns df));
                     Inserting (table_name params)])
       (engines w ++ [postgresql_url params]) (sql_log w) (db w)).
Proof.
  intros Hfile. unfold ingest_csv.
  rewrite bind_create_engine, bind_print, bind_run.
  unfold read_csv_nrows at 1. cbn [files stdout engines sql_log db]. rewrite Hfile.
  rewrite bind_print, bind_run, detect_run. cbn [files stdout engines sql_log db].
  rewrite bind_print, bind_run.
  unfold read_csv_iterator at 1. cbn [files stdout engines sql_log db]. rewrite Hfile.
  rewrite bind_print. cbn [files stdout engines sql_log db].
  unfold Pd.head. rewrite columns_iloc, app_nil_l, <- !app_assoc.
  rewrite !bind_run, ingest_csv_loop. done.
Qed.

Lemma ingest_csv_run params df batches w :
  files w !! file_path params = Some (CsvData df) →
  coerced_from to_datetime df batches →
  ingest_csv to_datetime params w = (csv_done params df batches w, Ok tt).
Proof.
  intros Hfile Hco. rewrite (ingest_csv_head params df w Hfile), bind_run.
  rewrite (loop_run _ _ _ _ _ batches); [| done | by eapply coerced_uniform].
  unfold print, csv_done. cbn [files stdout engines sql_log db].
  by rewrite <- !app_assoc.
Qed.

Lemma ingest_csv_inv params w w' :
  ingest_csv to_datetime params w = (w', Ok tt) →
  ∃ df batches,
    files w !! file_path params = Some (CsvData df) ∧
    coerced_from to_datetime df batches ∧
    w' = csv_done params df batches w.
Proof.
  destruct (files w !! file_path params) as [[df|df]|] eqn:Hfile.
  - unfold ingest_csv.
    rewrite bind_create_engine, bind_print, bind_run.
    unfold read_csv_nrows at 1. cbn [files]. by rewrite Hfile.
  - intros Hrun. pose proof Hrun as Hrun'.
    rewrite (ingest_csv_head params df w Hfile), bind_run in Hrun'.
    destruct (for_each _ _ _) as [w1 [[]|e]] eqn:Hloop in Hrun'; [|discriminate].
    apply loop_ok in Hloop as (batches & Hprep & _).
    exists df, batches. split; [done |]. split; [done |].
    rewrite (ingest_csv_run params df batches w Hfile Hprep) in Hrun. congruence.
  - unfold ingest_csv.
    rewrite bind_create_engine, bind_print, bind_run.
    unfold read_csv_nrows at 1. cbn [files]. by rewrite Hfile.
Qed.

End Runs.

(** ** What a run adds to the log, the output and the server *)

Section Added.

Implicit Types (w : World) (batches : list DataFrame) (T : string).

Lemma new_ops_app w w' ops : sql_log w' = sql_log w ++ ops → new_ops w w' = ops.
Proof. intros H. unfold new_ops. rewrite H. apply drop_app_length. Qed.

Lemma new_lines_app w w' ls : stdout w' = stdout w ++ ls → new_lines w w' = ls.
Proof. intros H. unfold new_lines. rewrite H. apply drop_app_length. Qed.

Lemma appended_appends T batches : appended (SqlAppend T <$> batches) = batches.
Proof. unfold appended. induction batches as [|c cs IH]; [done |]. simpl. by f_equal. Qed.

Lemma appended_batch_ops T batches : appended (batch_ops T batches) = batches.
Proof.
  destruct batches as [|c cs]; [done |].
  rewrite batch_ops_cons. unfold appended. simpl. f_equal. apply appended_appends.
Qed.

Lemma sum_len batches :
  foldr (λ df n, Pd.len df + n) 0 batches = Z.of_nat (length (concat (index <$> batches))).
Proof.
  induction batches as [|c cs IH]; [done |].
  simpl. rewrite length_app, IH, Nat2Z.inj_add. reflexivity.
Qed.

Lemma rows_written_batch_ops T batches :
  rows_written (batch_ops T batches) = Z.of_nat (length (concat (index <$> batches))).
Proof. unfold rows_written. by rewrite appended_batch_ops, sum_len. Qed.

Lemma length_concat_rows batches :
  length (concat (Pd.rows_of <$> batches)) = length (concat (index <$> batches)).
Proof.
  induction batches as [|c cs IH]; [done |].
  rewrite !fmap_cons. cbn [concat]. rewrite !length_app, IH.
  unfold Pd.rows_of. by rewrite length_tuples.
Qed.

Lemma written_lookup T batches chunk (d : gmap string Table) :
  head batches = Some chunk →
  written T batches d !! T =
    Some (mkTable (Pd.schema_of chunk) (concat (Pd.rows_of <$> batches))).
Proof.
  destruct batches as [|c cs]; intros [= <-]. unfold written. apply lookup_insert_eq.
Qed.

Lemma written_other T T' batches (d : gmap string Table) :
  T ≠ T' → written T batches d !! T' = d !! T'.
Proof.
  intros Hne. destruct batches as [|c cs]; [done |].
  unfold written. by apply lookup_insert_ne.
Qed.

Lemma written_twice T batches (d : gmap string Table) :
  written T batches (written T batches d) = written T batches d.
Proof. destruct batches as [|c cs]; [done |]. unfold written. apply insert_insert_eq. Qed.

Lemma replaces_in_batch_ops T chunk batches :
  filter (λ op, is_replace op = true) (batch_ops T (chunk :: batches)) =
    [SqlReplace T (Pd.head chunk 0)].
Proof.
  rewrite batch_ops_cons, filter_cons_True, filter_cons_False by done.
  f_equal. induction batches as [|c cs IH]; [done |].
  rewrite fmap_cons. by rewrite filter_cons_False.
Qed.

Lemma replace_first_batch_ops T batches : replace_first T (batch_ops T batches).
Proof.
  destruct batches as [|c cs]; [by left |]. right. exists c, (SqlAppend T <$> cs).
  split; [apply batch_ops_cons |]. apply Forall_fmap, Forall_forall. intros c' _. by exists c'.
Qed.

End Added.

(** ** Runs that stop early *)

Section AnyRun.

Context {X : Type}.
Variables (prep : X → Result DataFrame) (line : Z → X → DataFrame → Line).
Variables (T : string) (engine : Engine).
Implicit Types (w : World) (xs : list X).

Local Abbreviation body := (loop_body prep line T engine).

Lemma to_sql_append_log chunk w :
  ∃ d r, to_sql chunk T engine Append w =
    (mkWorld (files w) (stdout w) (engines w) (sql_log w ++ [SqlAppend T chunk]) d, r).
Proof.
  unfold to_sql. cbn [db log_sql set_db files stdout engines sql_log].
  destruct (db w !! T) as [t|]; [|by eauto].
  destruct (decide _); by eauto.
Qed.

Lemma loop_tail_any xs i w :
  0 < i →
  ∃ ops, sql_log (for_each (Py.enumerate_from i xs) body w).1 = sql_log w ++ ops ∧
         Forall (λ op, ∃ chunk, op = SqlAppend T chunk) ops.
Proof.
  revert i w. induction xs as [|x xs IH]; intros i w Hi.
  - exists []. by rewrite app_nil_r.
  - cbn [Py.enumerate_from for_each]. rewrite bind_run, loop_body_run.
    destruct (prep x) as [chunk|e]; [|exists []; by rewrite app_nil_r].
    rewrite write_batch_next by lia.
    destruct (to_sql_append_log chunk w) as (d & r & ->).
    destruct r as [[]|e].
    + unfold print at 1.
      edestruct (IH (i + 1)) as (ops & -> & Hops); [lia |].
      cbn [sql_log]. exists (SqlAppend T chunk :: ops).
      rewrite <- app_assoc. split; [done |]. constructor; by eauto.
    + exists [SqlAppend T chunk]. split; [done |]. constructor; by eauto.
Qed.

Lemma loop_any xs w :
  ∃ ops, sql_log (for_each (Py.enumerate xs) body w).1 = sql_log w ++ ops ∧
         replace_first T ops.
Proof.
  destruct xs as [|x xs].
  - exists []. rewrite app_nil_r. split; [done | by left].
  - unfold Py.enumerate. cbn [Py.enumerate_from for_each].
    rewrite bind_run, loop_body_run.
    destruct (prep x) as [chunk|e]; [|exists []; rewrite app_nil_r; split; [done | by left]].
    rewrite write_batch_first. unfold print at 1.
    edestruct (loop_tail_any xs (0 + 1)) as (ops & -> & Hops); [lia |].
    cbn [sql_log]. rewrite <- app_assoc.
    eexists. split; [done |]. right. by exists chunk, ops.
Qed.

End AnyRun.

(** ** Whole runs of [main] *)

Section MainRuns.

Variable to_datetime : Series → option Series.
Implicit Types (w : World) (df chunk : DataFrame) (params : Params).

Lemma ingest_parquet_no_file params w :
  (∀ df, files w !! file_path params ≠ Some (ParquetData df)) →
  ∃ e, ingest_parquet to_datetime params w =
    (mkWorld (files w) (stdout w ++ [ReadingParquet (file_path params)])
       (engines w ++ [postgresql_url params]) (sql_log w) (db w), Raised e).
Proof.
  intros Hno. unfold ingest_parquet.
  rewrite bind_create_engine, bind_print, bind_run.
  unfold read_parquet. cbn [files stdout engines sql_log db].
  destruct (files w !! file_path params) as [[df|df]|]; [by destruct (Hno df) | |];
    by eauto.
Qed.

Lemma ingest_csv_no_file params w :
  (∀ df, files w !! file_path params ≠ Some (CsvData df)) →
  ∃ e, ingest_csv to_datetime params w =
    (mkWorld (files w) (stdout w ++ [ReadingCsv (file_path params)])
       (engines w ++ [postgresql_url params]) (sql_log w) (db w), Raised e).
Proof.
  intros Hno. unfold ingest_csv.
  rewrite bind_create_engine, bind_print, bind_run.
  unfold read_csv_nrows. cbn [files stdout engines sql_log db].
  destruct (files w !! file_path params) as [[df|df]|]; [| by destruct (Hno df) |];
    by eauto.
Qed.

Lemma ingest_parquet_ops params w :
  ∃ ops, sql_log (ingest_parquet to_datetime params w).1 = sql_log w ++ ops ∧
         replace_first (table_name params) ops.
Proof.
  destruct (files w !! file_path params) as [[df|df]|] eqn:Hfile.
  - rewrite (ingest_parquet_run to_datetime params df w Hfile).
    destruct (normalize _ _ df) as [df'|e].
    + eexists. split; [done |]. apply replace_first_batch_ops.
    + exists []. rewrite app_nil_r. split; [done | by left].
  - destruct (ingest_parquet_no_file params w) as [e ->]; [congruence |].
    exists []. rewrite app_nil_r. split; [done | by left].
  - destruct (ingest_parquet_no_file params w) as [e ->]; [congruence |].
    exists []. rewrite app_nil_r. split; [done | by left].
Qed.

Lemma ingest_csv_ops params w :
  ∃ ops, sql_log (ingest_csv to_datetime params w).1 = sql_log w ++ ops ∧
         replace_first (table_name params) ops.
Proof.
  destruct (files w !! file_path params) as [[df|df]|] eqn:Hfile.
  - destruct (ingest_csv_no_file params w) as [e ->]; [congruence |].
    exists []. rewrite app_nil_r. split; [done | by left].
  - rewrite (ingest_csv_head to_datetime params df w Hfile), bind_run.
    match goal with |- context [for_each ?xs ?b ?w0] =>
      destruct (loop_any (coerce to_datetime (detect_datetime_columns (Pd.columns df)))
                  csv_line (table_name params)
                  (mkEngine (postgresql_url params)) (csv_chunks df 100000) w0)
        as (ops & Hlog & Hshape);
      destruct (for_each xs b w0) as [w1 [[]|e]] eqn:Hloop
    end; exists ops; by split.
  - destruct (ingest_csv_no_file params w) as [e ->]; [congruence |].
    exists []. rewrite app_nil_r. split; [done | by left].
Qed.

(** Whatever way a run ends, its [to_sql] calls start with the one
    replace, if there are any. *)
Lemma main_ops params w :
  replace_first (table_name params) (new_ops w (main to_datetime params w).1).
Proof.
  unfold main.
  destruct (Py.endswith (file_path params) ".parquet").
  - rewrite bind_print.
    edestruct (ingest_parquet_ops params) as (ops & Hlog & Hshape).
    erewrite new_ops_app; [done |]. by rewrite Hlog.
  - destruct (_ || _).
    + rewrite bind_print.
      edestruct (ingest_csv_ops params) as (ops & Hlog & Hshape).
      erewrite new_ops_app; [done |]. by rewrite Hlog.
    + unfold new_ops. cbn. rewrite drop_all. by left.
Qed.

Lemma main_ok params w w' :
  main to_datetime params w = (w', Ok tt) ↔ RanThrough to_datetime params w w'.
Proof.
  split.
  - unfold main.
    destruct (Py.endswith (file_path params) ".parquet") eqn:Hp.
    + rewrite bind_print. intros (df & df' & Hfile & Hn & ->)%ingest_parquet_inv.
      by eapply RanParquet.
    + destruct (_ || _) eqn:Hc.
      * rewrite bind_print. intros (df & batches & Hfile & Hco & ->)%ingest_csv_inv.
        by eapply RanCsv.
      * intros [= <-]. by apply RanUnsupported.
  - intros [df df' Hp Hfile Hn | df batches Hp Hc Hfile Hco | Hp Hc];
      unfold main; rewrite Hp; [| rewrite Hc ..].
    + change (ingest_parquet to_datetime params (printed DetectedParquet w) = (parquet_done params df df' (printed DetectedParquet w), Ok tt)).
      by rewrite (ingest_parquet_run to_datetime params df (printed DetectedParquet w) Hfile), Hn.
    + change (ingest_csv to_datetime params (printed DetectedCsv w) = (csv_done params df batches (printed DetectedCsv w), Ok tt)).
      by apply ingest_csv_run.
    + done.
Qed.

Lemma main_ok_run params w :
  (main to_datetime params w).2 = Ok tt → RanThrough to_datetime params w (main to_datetime params w).1.
Proof.
  intros H. apply main_ok. destruct (main to_datetime params w) as [w' r].
  simpl in *. by subst r.
Qed.

End MainRuns.

(** ** The table a Parquet run leaves *)

Section Content.

Variable to_datetime : Series → option Series.
Implicit Types (w : World) (df : DataFrame) (params : Params).

Lemma range_head n c : 0 < n → 0 < c → ∃ rest, Py.range 0 n c = 0 :: rest.
Proof.
  intros Hn Hc. rewrite range_from_zero, range_len_pos by lia.
  assert (1 ≤ (n + c - 1) `div` c) by (apply Z.div_le_lower_bound; lia).
  destruct (Z.to_nat ((n + c - 1) `div` c)) as [|k] eqn:Hk; [lia |].
  eexists. reflexivity.
Qed.


End Content.

(** ** Row counts that are an exact multiple of the batch size *)

Section Exact.

Implicit Types (df : DataFrame) (k : Z).

Lemma enumerate_from_fmap_seq {A} (g : nat → A) (i : Z) (s m : nat) :
  Py.enumerate_from i (g <$> seq s m) =
    (λ j : nat, (i + Z.of_nat j - Z.of_nat s, g j)) <$> seq s m.
Proof.
  revert i s. induction m as [|m IH]; intros i s; [done |].
  cbn [seq fmap list_fmap Py.enumerate_from]. f_equal.
  - f_equal. lia.
  - rewrite (IH (i + 1) (S s)). apply list_fmap_ext. intros _ j _. f_equal. lia.
Qed.

Lemma progress_lines_fmap {X} (line : Z → X → DataFrame → Line) (f : X → DataFrame)
    (i : Z) (xs : list X) :
  progress_lines line i xs (f <$> xs) =
    (λ jx : Z * X, line jx.1 jx.2 (f jx.2)) <$> Py.enumerate_from i xs.
Proof.
  revert i. induction xs as [|x xs IH]; intros i; [done |].
  cbn [fmap list_fmap progress_lines Py.enumerate_from]. f_equal. apply IH.
Qed.

Lemma parquet_batches_exact df k :
  0 < k → Pd.len df = k * 100000 →
  parquet_batches df =
    (λ j : nat, Pd.iloc df (Z.of_nat j * 100000) (Z.of_nat j * 100000 + 100000))
      <$> seq 0 (Z.to_nat k).
Proof.
  intros Hk Hlen. unfold parquet_batches. rewrite Hlen, range_exact by lia.
  rewrite <- list_fmap_compose. apply list_fmap_ext.
  intros i j [-> Hj]%lookup_seq. simpl. f_equal. lia.
Qed.

Lemma parquet_batches_full df k :
  0 < k → Pd.len df = k * 100000 →
  length (parquet_batches df) = Z.to_nat k ∧
  Forall (λ chunk, Pd.len chunk = 100000) (parquet_batches df).
Proof.
  intros Hk Hlen. rewrite (parquet_batches_exact df k Hk Hlen).
  rewrite length_fmap, length_seq. split; [done |].
  apply Forall_fmap, Forall_forall. intros j [_ Hj]%elem_of_seq. simpl.
  rewrite len_iloc; lia.
Qed.

Lemma parquet_progress_exact df k :
  0 < k → Pd.len df = k * 100000 →
  progress_lines (parquet_line df) 0 (Py.range 0 (Pd.len df) 100000) (parquet_batches df) =
    (λ j : nat, InsertedParquet (Z.of_nat j + 1) (k + 1)
                  ((Z.of_nat j + 1) * 100000) (k * 100000))
      <$> seq 0 (Z.to_nat k).
Proof.
  intros Hk Hlen. unfold parquet_batches. rewrite progress_lines_fmap.
  rewrite Hlen, range_exact by lia. unfold Py.enumerate.
  rewrite enumerate_from_fmap_seq, <- list_fmap_compose.
  apply list_fmap_ext. intros i j [-> Hj]%lookup_seq. simpl.
  unfold parquet_line. rewrite Hlen, Z.div_mul by lia. f_equal; lia.
Qed.

Lemma seq_last (k : Z) :
  0 < k → seq 0 (Z.to_nat k) = seq 0 (Z.to_nat (k - 1)) ++ [Z.to_nat (k - 1)].
Proof.
  intros Hk. replace (Z.to_nat k) with (S (Z.to_nat (k - 1))) by lia.
  by rewrite seq_S.
Qed.

End Exact.

(** ** Column names and the columns a conversion touches *)

Section Names.

Implicit Types (s sub pre post col : string).

Lemma prefix_spec sub s : String.prefix sub s = true ↔ ∃ post, s = sub +:+ post.
Proof.
  revert s. induction sub as [|c sub IH]; intros s.
  - split; [intros _; by exists s | by destruct s].
  - destruct s as [|c' s]; simpl.
    + split; [done | by intros [post ?]].
    + destruct (ascii_dec c c') as [->|Hne].
      * rewrite IH. split; intros [post Hpost]; exists post.
        -- by rewrite Hpost.
        -- by injection Hpost.
      * split; [done |]. intros [post Hpost]. injection Hpost as -> _. done.
Qed.

(** [sub in s] holds exactly when [s] is [pre + sub + post]. *)
Lemma contains_spec sub s :
  Py.contains sub s = true ↔ ∃ pre post, s = pre +:+ sub +:+ post.
Proof.
  induction s as [|c s IH].
  - cbn [Py.contains]. rewrite orb_false_r, prefix_spec. split.
    + intros [post ->]. by exists EmptyString, post.
    + intros (pre & post & Heq). destruct pre; [by exists post |]. discriminate.
  - cbn [Py.contains]. rewrite orb_true_iff, prefix_spec, IH. split.
    + intros [[post ->] | (pre & post & ->)].
      * by exists EmptyString, post.
      * by exists (String c pre), post.
    + intros (pre & post & Heq). destruct pre as [|c' pre].
      * left. by exists post.
      * right. injection Heq as -> ->. by exists pre, post.
Qed.

Lemma lower_ascii_idemp c : Py.lower_ascii (Py.lower_ascii c) = Py.lower_ascii c.
Proof. by destruct c as [[] [] [] [] [] [] [] []]. Qed.

Lemma lower_idemp s : Py.lower (Py.lower s) = Py.lower s.
Proof. induction s as [|c s IH]; [done |]. simpl. by rewrite lower_ascii_idemp, IH. Qed.

(** The test does not depend on the case of the name. *)
Lemma is_datetime_name_lower col : is_datetime_name (Py.lower col) = is_datetime_name col.
Proof. unfold is_datetime_name. by rewrite lower_idemp. Qed.

Lemma elem_of_detected col (cols : list string) :
  col ∈ detect_datetime_columns cols ↔
  col ∈ cols ∧
  (Py.contains "date" (Py.lower col) = true ∨ Py.contains "time" (Py.lower col) = true).
Proof.
  unfold detect_datetime_columns, is_datetime_name.
  rewrite list_elem_of_filter, orb_true_iff. tauto.
Qed.

End Names.

Section Conversions.

Variable to_datetime : Series → option Series.
Implicit Types (df raw chunk : DataFrame) (col name : string) (cols : list string).

Lemma setitem_cols_lookup_other (l : list (string * Series)) col s (j : nat) name s0 :
  name ≠ col → l !! j = Some (name, s0) → Pd.setitem_cols l col s !! j = Some (name, s0).
Proof.
  intros Hne. revert j. induction l as [|[n1 s1] l IH]; intros j; [done |].
  simpl. destruct (decide (n1 = col)) as [->|Hn1].
  - destruct j as [|j]; simpl; [|done]. intros [= <- <-]. done.
  - destruct j as [|j]; simpl; [done | apply IH].
Qed.

Lemma convert_column_inv df col df' :
  convert_column to_datetime df col = Ok df' →
  ∃ s s', Pd.getitem df col = Some s ∧ to_datetime s = Some s' ∧
          df' = Pd.setitem df col s'.
Proof.
  unfold convert_column. destruct (Pd.getitem df col) as [s|]; [|done].
  destruct (to_datetime s) as [s'|] eqn:Hs; [|done]. intros [= <-]. by eauto.
Qed.

(** A column that is not in the list keeps its place and its content. *)
Lemma coerce_positions cols raw chunk (j : nat) name s :
  coerce to_datetime cols raw = Ok chunk →
  name ∉ cols → data raw !! j = Some (name, s) → data chunk !! j = Some (name, s).
Proof.
  revert raw. induction cols as [|col cols IH]; intros raw; simpl.
  - by intros [= <-].
  - intros Hco [Hne Hnot]%not_elem_of_cons Hj.
    destruct (decide (col ∈ Pd.columns raw)); [|by eapply IH].
    destruct (convert_column to_datetime raw col) as [raw1|] eqn:H1; [|done].
    apply convert_column_inv in H1 as (s0 & s' & _ & _ & ->).
    eapply IH; [done | done |]. by apply setitem_cols_lookup_other.
Qed.

Lemma coerce_getitem_other cols raw chunk col :
  coerce to_datetime cols raw = Ok chunk →
  col ∉ cols → Pd.getitem chunk col = Pd.getitem raw col.
Proof.
  revert raw. induction cols as [|c0 cols IH]; intros raw; simpl.
  - by intros [= <-].
  - intros Hco [Hne Hnot]%not_elem_of_cons.
    destruct (decide (c0 ∈ Pd.columns raw)); [|by eapply IH].
    destruct (convert_column to_datetime raw c0) as [raw1|] eqn:H1; [|done].
    apply convert_column_inv in H1 as (s0 & s' & _ & _ & ->).
    rewrite (IH _ Hco Hnot). by apply getitem_setitem_ne.
Qed.

(** A listed column that the chunk has is replaced by its conversion. *)
Lemma coerce_converted cols raw chunk col :
  NoDup cols → coerce to_datetime cols raw = Ok chunk →
  col ∈ cols → col ∈ Pd.columns raw →
  ∃ s s', Pd.getitem raw col = Some s ∧ to_datetime s = Some s' ∧
          Pd.getitem chunk col = Some s'.
Proof.
  intros Hnd. revert raw.
  induction Hnd as [|c0 cols Hfresh Hnd IH]; intros raw; simpl.
  - by intros _ ?%elem_of_nil.
  - intros Hco Hin Hcol. destruct (decide (c0 ∈ Pd.columns raw)) as [Hc0|Hc0].
    + destruct (convert_column to_datetime raw c0) as [raw1|] eqn:H1; [|done].
      pose proof (convert_column_shape _ _ _ _ H1) as [_ Hcols1].
      apply convert_column_inv in H1 as (s0 & s' & Hs0 & Hs' & ->).
      apply elem_of_cons in Hin as [->|Hin].
      * exists s0, s'. split; [done |]. split; [done |].
        rewrite (coerce_getitem_other _ _ _ _ Hco Hfresh). apply getitem_setitem_eq.
      * assert (c0 ≠ col) as Hne by (intros ->; done).
        destruct (IH _ Hco Hin) as (s1 & s1' & Hs1 & Hs1' & Hget); [by rewrite Hcols1 |].
        exists s1, s1'. split; [|done].
        by rewrite getitem_setitem_ne in Hs1.
    + apply elem_of_cons in Hin as [->|Hin]; [done | by apply IH].
Qed.

End Conversions.

(** ** The model at work *)

(** A CSV file of 250000 rows with columns [id], [pickup_datetime] and
    [fare] is written in three appends of 100000, 100000 and 50000 rows
    after one replace, and leaves a table of 250000 rows whose
    [pickup_datetime] column is a datetime column. *)
Example csv_250000_rows :
  let params := sample_params "trips.csv" in
  let w := sample_world "trips.csv" (CsvData (trips 250000)) in
  let w' := (main epoch_to_datetime params w).1 in
  (main epoch_to_datetime params w).2 = Ok tt ∧
  is_replace <$> new_ops w w' = [true; false; false; false] ∧
  Pd.len <$> appended (new_ops w w') = [100000; 100000; 50000] ∧
  new_lines w w' =
    [DetectedCsv; ReadingCsv "trips.csv"; Columns ["id"; "pickup_datetime"; "fare"];
     DetectedDatetime ["pickup_datetime"]; Inserting "trips";
     InsertedCsv 1 100000; InsertedCsv 2 100000; InsertedCsv 3 50000; Completed] ∧
  schema <$> db w' !! "trips" =
    Some [("id", Int64); ("pickup_datetime", Datetime64); ("fare", Int64)] ∧
  (λ t, Z.of_nat (length (rows t))) <$> db w' !! "trips" = Some 250000.
Proof. cbv zeta. repeat apply conj; vm_compute; reflexivity. Qed.

(** The rows arrive in file order, each with its own cells. *)
Example parquet_5_rows :
  let params := sample_params "trips.parquet" in
  let w := sample_world "trips.parquet" (ParquetData (trips 5)) in
  db (main epoch_to_datetime params w).1 !! "trips" =
    Some (mkTable [("id", Int64); ("pickup_datetime", Int64); ("fare", Int64)]
            [[VInt 0; VInt 0; VInt 0]; [VInt 1; VInt 1; VInt 1]; [VInt 2; VInt 2; VInt 2];
             [VInt 3; VInt 3; VInt 3]; [VInt 4; VInt 4; VInt 4]]).
Proof. vm_compute. reflexivity. Qed.

(** A column of text that is named like a date stops the run at the
    first chunk, before anything is written. *)
Example csv_unparsable_date :
  let params := sample_params "events.csv" in
  let df := mkFrame [0] [("event_date", mkSeries Object [VStr "soon"])] in
  let w := sample_world "events.csv" (CsvData df) in
  let w' := (main epoch_to_datetime params w).1 in
  (main epoch_to_datetime params w).2 = Raised DateParseError ∧
  new_ops w w' = [] ∧ db w' = db w.
Proof. cbv zeta. repeat apply conj; vm_compute; reflexivity. Qed.

(** Appending a frame whose columns are not the table's is refused. *)
Example append_with_other_columns :
  let w := sample_world "trips.csv" (CsvData (trips 1)) in
  (to_sql (trips 1) "trips" (mkEngine "postgresql://") Append w).2
    = Raised (SchemaMismatch "trips").
Proof. vm_compute. reflexivity. Qed.

(** Name detection: by substring, whatever the case. *)
Example detect_taxi_columns :
  detect_datetime_columns
    ["VendorID"; "tpep_pickup_datetime"; "Lpep_Dropoff_DateTime"; "fare_amount";
     "TIMEZONE"; "updated"; "estimate"]
  = ["tpep_pickup_datetime"; "Lpep_Dropoff_DateTime"; "TIMEZONE"; "updated"].
Proof. vm_compute. reflexivity. Qed.

Example ranges :
  Py.range 0 250000 100000 = [0; 100000; 200000] ∧
  Py.range 0 200000 100000 = [0; 100000] ∧
  Py.range 0 1 100000 = [0] ∧
  Py.range 0 0 100000 = [].
Proof. cbv zeta. repeat apply conj; vm_compute; reflexivity. Qed.

Example suffixes :
  Py.endswith "data/yellow.parquet" ".parquet" = true ∧
  Py.endswith "green.csv.gz" ".csv.gz" = true ∧
  Py.endswith "green.csv.gz" ".csv" = false ∧
  Py.endswith "green.csv" ".csv" = true ∧
  Py.endswith "csv" ".csv" = false ∧
  Py.endswith "notes.CSV" ".csv" = false.
Proof. cbv zeta. repeat apply conj; vm_compute; reflexivity. Qed.

(** ** Format dispatch *)

Section Dispatch.

Variable to_datetime : Series → option Series.
Implicit Types (w : World) (params : Params).

Lemma parquet_branch_no_files params :
  (print DetectedParquet;; ingest_parquet to_datetime params) no_files =
    (mkWorld ∅ [DetectedParquet; ReadingParquet (file_path params)]
       [postgresql_url params] [] ∅, Raised (FileNotFoundError (file_path params))).
Proof.
  rewrite bind_print. unfold ingest_parquet.
  rewrite bind_create_engine, bind_print, bind_run.
  unfold read_parquet. cbn [files no_files]. by rewrite lookup_empty.
Qed.

Lemma csv_branch_no_files params :
  (print DetectedCsv;; ingest_csv to_datetime params) no_files =
    (mkWorld ∅ [DetectedCsv; ReadingCsv (file_path params)]
       [postgresql_url params] [] ∅, Raised (FileNotFoundError (file_path params))).
Proof.
  rewrite bind_print. unfold ingest_csv.
  rewrite bind_create_engine, bind_print, bind_run.
  unfold read_csv_nrows. cbn [files no_files]. by rewrite lookup_empty.
Qed.

Lemma main_parquet params :
  Py.endswith (file_path params) ".parquet" = true → selects_parquet to_datetime params.
Proof. intros H w. unfold main. by rewrite H. Qed.

Lemma main_csv params :
  Py.endswith (file_path params) ".parquet" = false →
  Py.endswith (file_path params) ".csv" || Py.endswith (file_path params) ".csv.gz" = true →
  selects_csv to_datetime params.
Proof. intros H1 H2 w. unfold main. by rewrite H1, H2. Qed.

Lemma main_unsupported params :
  Py.endswith (file_path params) ".parquet" = false →
  Py.endswith (file_path params) ".csv" || Py.endswith (file_path params) ".csv.gz" = false →
  reports_unsupported to_datetime params.
Proof. intros H1 H2 w. unfold main. by rewrite H1, H2. Qed.

(** C4: the dispatcher takes the Parquet path exactly for the paths ending
    in [.parquet], the CSV path exactly for those ending in [.csv] or
    [.csv.gz], and for every other path it only reports the unsupported
    format and takes neither path. *)
Theorem C4_dispatch_by_suffix params :
  (selects_parquet to_datetime params ↔
     Py.endswith (file_path params) ".parquet" = true) ∧
  (selects_csv to_datetime params ↔
     Py.endswith (file_path params) ".csv" = true ∨
     Py.endswith (file_path params) ".csv.gz" = true) ∧
  (reports_unsupported to_datetime params ∧
   ¬ selects_parquet to_datetime params ∧ ¬ selects_csv to_datetime params ↔
     Py.endswith (file_path params) ".parquet" = false ∧
     Py.endswith (file_path params) ".csv" = false ∧
     Py.endswith (file_path params) ".csv.gz" = false).
Proof.
  destruct (Py.endswith (file_path params) ".parquet") eqn:Hp.
  - pose proof (endswith_parquet_not_csv _ Hp) as Hc.
    pose proof (main_parquet params Hp) as Hsel.
    apply orb_false_elim in Hc as [Hc1 Hc2]. rewrite Hc1, Hc2.
    split; [done |]. split.
    + split; [|by intros [|]].
      intros Hcsv. specialize (Hsel no_files). rewrite (Hcsv no_files) in Hsel.
      rewrite parquet_branch_no_files, csv_branch_no_files in Hsel. discriminate.
    + split; [|by intros (? & _)]. by intros (_ & Hn & _).
  - destruct (Py.endswith (file_path params) ".csv" || Py.endswith (file_path params) ".csv.gz")
      eqn:Hc.
    + pose proof (main_csv params Hp Hc) as Hsel.
      split; [|split].
      * split; [|done].
        intros Hpar. specialize (Hsel no_files). rewrite (Hpar no_files) in Hsel.
        rewrite parquet_branch_no_files, csv_branch_no_files in Hsel. discriminate.
      * split; [|done]. intros _. by apply orb_prop.
      * split; [by intros (_ & _ & Hn) |].
        intros (_ & H1 & H2). rewrite H1, H2 in Hc. discriminate.
    + pose proof (main_unsupported params Hp Hc) as Hun.
      apply orb_false_elim in Hc as [Hc1 Hc2]. rewrite Hc1, Hc2.
      assert (¬ selects_parquet to_datetime params) as Hnp.
      { intros Hpar. specialize (Hun no_files). rewrite (Hpar no_files) in Hun.
        rewrite parquet_branch_no_files in Hun. discriminate. }
      assert (¬ selects_csv to_datetime params) as Hnc.
      { intros Hcsv. specialize (Hun no_files). rewrite (Hcsv no_files) in Hun.
        rewrite csv_branch_no_files in Hun. discriminate. }
      split; [done |]. split; [split; [done | by intros [|]] | done].
Qed.

(** C5: for a path with none of the three suffixes the program prints the
    unsupported-format line and returns normally; it creates no engine,
    issues no [to_sql], writes no row and leaves every table as it was. *)
Theorem C5_unsupported_is_silent params w :
  Py.endswith (file_path params) ".parquet" = false →
  Py.endswith (file_path params) ".csv" = false →
  Py.endswith (file_path params) ".csv.gz" = false →
  let w' := (main to_datetime params w).1 in
  (main to_datetime params w).2 = Ok tt ∧
  new_lines w w' = [UnsupportedFormat] ∧
  engines w' = engines w ∧
  new_ops w w' = [] ∧ rows_written (new_ops w w') = 0 ∧
  db w' = db w ∧ files w' = files w.
Proof.
  intros Hp Hc1 Hc2. unfold main. rewrite Hp, Hc1, Hc2. cbn.
  unfold new_lines, new_ops. cbn. by rewrite drop_app_length, drop_all.
Qed.

End Dispatch.

Lemma C5_unsupported_is_silent_witness :
  let params := sample_params "trips.json" in
  let w := sample_world "trips.json" (CsvData (trips 3)) in
  let w' := (main epoch_to_datetime params w).1 in
  (main epoch_to_datetime params w).2 = Ok tt ∧
  new_lines w w' = [UnsupportedFormat] ∧
  engines w' = engines w ∧
  new_ops w w' = [] ∧ rows_written (new_ops w w') = 0 ∧
  db w' = db w ∧ files w' = files w.
Proof.
  apply (C5_unsupported_is_silent epoch_to_datetime (sample_params "trips.json")
           (sample_world "trips.json" (CsvData (trips 3)))); reflexivity.
Defined.

(** ** Rows written and the order of the writes *)

Section Batches.

Variable to_datetime : Series → option Series.
Implicit Types (w : World) (df chunk : DataFrame) (params : Params).

Lemma batches_nonempty (batches : list DataFrame) (l : list Z) :
  concat (index <$> batches) = l → (0 < length l)%nat → ∃ chunk, head batches = Some chunk.
Proof.
  destruct batches as [|c cs]; [|by eauto]. simpl. intros <-. simpl. lia.
Qed.

(** What the log and the table say after a loop over [batches] that cover
    the rows labelled [l]. *)
Lemma covered_rows T (batches : list DataFrame) (l : list Z) w w' :
  sql_log w' = sql_log w ++ batch_ops T batches →
  db w' = written T batches (db w) →
  concat (index <$> batches) = l →
  concat (index <$> appended (new_ops w w')) = l ∧
  rows_written (new_ops w w') = Z.of_nat (length l) ∧
  (0 < Z.of_nat (length l) →
   ∃ t, db w' !! T = Some t ∧ Z.of_nat (length (rows t)) = Z.of_nat (length l)).
Proof.
  intros Hlog Hdb Hcover. rewrite (new_ops_app _ _ _ Hlog).
  rewrite appended_batch_ops, rows_written_batch_ops, Hcover.
  split; [done |]. split; [done |]. intros Hpos.
  destruct (batches_nonempty batches l Hcover) as [chunk Hhd]; [lia |].
  eexists. rewrite Hdb. split; [by apply written_lookup |].
  cbn [rows]. by rewrite length_concat_rows, Hcover.
Qed.

(** C1: after a run on a supported file that went through, the frames
    appended to the table are consecutive pieces of the source in file
    order, covering every row once; the rows they carry add up to the
    source's row count; and a non-empty source leaves a table of exactly
    that many rows. *)
Theorem C1_rows_written_equal_source_rows params w :
  (main to_datetime params w).2 = Ok tt →
  Py.endswith (file_path params) ".parquet" || Py.endswith (file_path params) ".csv"
    || Py.endswith (file_path params) ".csv.gz" = true →
  let w' := (main to_datetime params w).1 in
  ∃ df,
    (files w !! file_path params = Some (ParquetData df) ∨
     files w !! file_path params = Some (CsvData df)) ∧
    concat (index <$> appended (new_ops w w')) = index df ∧
    rows_written (new_ops w w') = Pd.len df ∧
    (0 < Pd.len df →
     ∃ t, db w' !! table_name params = Some t ∧ Z.of_nat (length (rows t)) = Pd.len df).
Proof.
  intros Hok Hsup. cbv zeta.
  destruct (main_ok_run to_datetime params w Hok)
    as [df df' Hp Hfile Hn | df batches Hp Hc Hfile Hco | Hp Hc].
  - exists df. split; [by left |].
    apply normalize_shape in Hn as [Hidx _]. unfold Pd.len. rewrite <- Hidx.
    apply (covered_rows (table_name params) (parquet_batches df')); [done | done |].
    apply parquet_batches_index.
  - exists df. split; [by right |]. unfold Pd.len.
    apply (covered_rows (table_name params) batches); [done | done |].
    rewrite (coerced_index to_datetime df batches Hco). apply csv_chunks_index.
  - rewrite Hp, <- orb_assoc, Hc in Hsup. discriminate.
Qed.

(** C2: the [to_sql] calls of a run, however it ends, are none at all, or
    one replace built from the zero-row head of the first batch followed
    by appends only, the first batch's first.  In a run that went through
    they are exactly those of the loop over the appended batches - at
    index 0 a replace and an append, at every later index an append -
    so with at least one batch there is exactly one replace. *)
Theorem C2_one_replace_then_appends params w :
  let w' := (main to_datetime params w).1 in
  let ops := new_ops w w' in
  (ops = [] ∨
   ∃ chunk rest,
     ops = SqlReplace (table_name params) (Pd.head chunk 0)
             :: SqlAppend (table_name params) chunk :: rest ∧
     Pd.len (Pd.head chunk 0) = 0 ∧
     Pd.schema_of (Pd.head chunk 0) = Pd.schema_of chunk ∧
     Forall (λ op, is_replace op = false) rest) ∧
  ((main to_datetime params w).2 = Ok tt →
   ops = concat (iter_ops (table_name params) <$> Py.enumerate (appended ops)) ∧
   (appended ops ≠ [] → length (filter (λ op, is_replace op = true) ops) = 1%nat)).
Proof.
  cbv zeta. split.
  - destruct (main_ops to_datetime params w) as [->|(chunk & rest & -> & Hrest)];
      [by left | right].
    exists chunk, rest. split; [done |]. split; [done |].
    split; [apply schema_of_iloc |].
    eapply Forall_impl; [done |]. by intros op [c ->].
  - intros Hok.
    assert (∃ batches, new_ops w (main to_datetime params w).1
                       = batch_ops (table_name params) batches) as [batches ->].
    { destruct (main_ok_run to_datetime params w Hok)
        as [df df' Hp Hfile Hn | df batches Hp Hc Hfile Hco | Hp Hc].
      - eexists. by apply new_ops_app.
      - eexists. by apply new_ops_app.
      - exists []. unfold new_ops, printed. cbn. by rewrite drop_all. }
    rewrite appended_batch_ops. split; [done |].
    destruct batches as [|c cs]; [done |]. intros _.
    by rewrite replaces_in_batch_ops.
Qed.

End Batches.

Lemma C1_rows_written_equal_source_rows_witness :
  let params := sample_params "trips.parquet" in
  let w := sample_world "trips.parquet" (ParquetData (trips 250000)) in
  let w' := (main epoch_to_datetime params w).1 in
  ∃ df,
    (files w !! file_path params = Some (ParquetData df) ∨
     files w !! file_path params = Some (CsvData df)) ∧
    concat (index <$> appended (new_ops w w')) = index df ∧
    rows_written (new_ops w w') = Pd.len df ∧
    (0 < Pd.len df →
     ∃ t, db w' !! table_name params = Some t ∧ Z.of_nat (length (rows t)) = Pd.len df).
Proof.
  apply (C1_rows_written_equal_source_rows epoch_to_datetime
           (sample_params "trips.parquet")
           (sample_world "trips.parquet" (ParquetData (trips 250000))));
    vm_compute; reflexivity.
Defined.

Section ExactClaims.

Variable to_datetime : Series → option Series.
Implicit Types (w : World) (df : DataFrame) (params : Params) (k : Z).

Lemma parquet_run_exact params w df df' k :
  Py.endswith (file_path params) ".parquet" = true →
  files w !! file_path params = Some (ParquetData df) →
  normalize to_datetime (Pd.select_dtypes_datetime64 df) df = Ok df' →
  0 < k → Pd.len df = k * 100000 →
  main to_datetime params w =
    (parquet_done params df df' (printed DetectedParquet w), Ok tt) ∧
  Pd.len df' = k * 100000.
Proof.
  intros Hp Hfile Hn Hk Hlen. split.
  - apply main_ok. by eapply RanParquet.
  - apply normalize_shape in Hn as [Hidx _]. unfold Pd.len in *. by rewrite Hidx.
Qed.

(** C3 (amended): when the row count of a Parquet input is [k] times
    100000 with [k] positive, the loop runs over the [k] start offsets
    [0, 100000, ...] and no iteration has an empty range; the run raises
    nothing, every batch written is a full one, and the rows written add
    up to the source's row count. *)
Theorem C3_exact_multiple_runs_full_batches_only params w df df' k :
  Py.endswith (file_path params) ".parquet" = true →
  files w !! file_path params = Some (ParquetData df) →
  normalize to_datetime (Pd.select_dtypes_datetime64 df) df = Ok df' →
  0 < k → Pd.len df = k * 100000 →
  let w' := (main to_datetime params w).1 in
  Py.range 0 (Pd.len df') 100000 = (λ j : nat, Z.of_nat j * 100000) <$> seq 0 (Z.to_nat k) ∧
  ¬ has_empty_range_iteration (Pd.len df') ∧
  (main to_datetime params w).2 = Ok tt ∧
  length (appended (new_ops w w')) = Z.to_nat k ∧
  Forall (λ chunk, Pd.len chunk = 100000) (appended (new_ops w w')) ∧
  rows_written (new_ops w w') = Pd.len df.
Proof.
  intros Hp Hfile Hn Hk Hlen. cbv zeta.
  destruct (parquet_run_exact params w df df' k Hp Hfile Hn Hk Hlen) as [-> Hlen'].
  cbn [fst snd]. rewrite Hlen', range_exact by lia.
  split; [done |]. split.
  { intros (i & a & Hin & Hle). unfold Py.enumerate in Hin.
    rewrite range_exact, enumerate_from_fmap_seq in Hin by lia.
    apply list_elem_of_fmap in Hin as (j & [= -> ->] & [_ Hj]%elem_of_seq). lia. }
  split; [done |].
  rewrite (new_ops_app w _ (batch_ops (table_name params) (parquet_batches df')))
    by done.
  rewrite appended_batch_ops, rows_written_batch_ops, parquet_batches_index.
  destruct (parquet_batches_full df' k Hk Hlen') as [Hcount Hfull].
  split; [done |]. split; [done |]. unfold Pd.len in *. lia.
Qed.

(** C9: when the row count of a Parquet input is [k] times 100000 with
    [k] positive, [k] chunks are iterated and written while the total
    reported is [k + 1]: every progress line says "of k+1" and the last
    one is "chunk k/(k+1)". *)
Theorem C9_total_chunks_is_one_too_many params w df k :
  Py.endswith (file_path params) ".parquet" = true →
  files w !! file_path params = Some (ParquetData df) →
  0 < k → Pd.len df = k * 100000 →
  (main to_datetime params w).2 = Ok tt →
  let w' := (main to_datetime params w).1 in
  length (appended (new_ops w w')) = Z.to_nat k ∧
  Pd.len df `div` 100000 + 1 = k + 1 ∧
  new_lines w w' =
    [DetectedParquet; ReadingParquet (file_path params); Loaded (Pd.len df);
     Columns (Pd.columns df); Inserting (table_name params)] ++
    ((λ j : nat, InsertedParquet (Z.of_nat j + 1) (k + 1)
                   ((Z.of_nat j + 1) * 100000) (Pd.len df)) <$> seq 0 (Z.to_nat k)) ++
    [Completed] ∧
  ∃ before,
    new_lines w w' =
      before ++ [InsertedParquet k (k + 1) (Pd.len df) (Pd.len df); Completed].
Proof.
  intros Hp Hfile Hk Hlen Hok. cbv zeta.
  destruct (main_ok_run to_datetime params w Hok)
    as [df0 df' _ Hfile0 Hn | df0 batches Hp0 | Hp0]; [| congruence ..].
  assert (df0 = df) as -> by congruence.
  destruct (parquet_run_exact params w df df' k Hp Hfile Hn Hk Hlen) as [_ Hlen'].
  rewrite (new_ops_app _ _ (batch_ops (table_name params) (parquet_batches df')))
    by done.
  rewrite appended_batch_ops.
  destruct (parquet_batches_full df' k Hk Hlen') as [Hcount _].
  split; [done |]. split; [by rewrite Hlen, Z.div_mul by lia |].
  assert (new_lines w (parquet_done params df df' (printed DetectedParquet w)) =
    [DetectedParquet; ReadingParquet (file_path params); Loaded (Pd.len df);
     Columns (Pd.columns df); Inserting (table_name params)] ++
    ((λ j : nat, InsertedParquet (Z.of_nat j + 1) (k + 1)
                   ((Z.of_nat j + 1) * 100000) (Pd.len df)) <$> seq 0 (Z.to_nat k)) ++
    [Completed]) as Hlines.
  { apply new_lines_app. unfold parquet_done, printed. cbn [stdout].
    rewrite (parquet_progress_exact df' k Hk Hlen'), Hlen, <- !app_assoc. done. }
  split; [done |]. rewrite Hlines, (seq_last k Hk), fmap_app.
  exists ([DetectedParquet; ReadingParquet (file_path params); Loaded (Pd.len df);
           Columns (Pd.columns df); Inserting (table_name params)] ++
          ((λ j : nat, InsertedParquet (Z.of_nat j + 1) (k + 1)
                         ((Z.of_nat j + 1) * 100000) (Pd.len df))
             <$> seq 0 (Z.to_nat (k - 1)))).
  rewrite <- !app_assoc. do 2 f_equal. rewrite fmap_cons. cbn [app fmap list_fmap].
  do 2 f_equal; lia.
Qed.

End ExactClaims.

(** C3 as first stated fails: a Parquet input of 200000 rows is iterated
    twice, at offsets 0 and 100000, and neither iteration has an empty
    range; the run prints two progress lines and appends two full
    batches. *)
Lemma C3_extra_empty_iteration_counterexample :
  let df := trips 200000 in
  let params := sample_params "trips.parquet" in
  let w := sample_world "trips.parquet" (ParquetData df) in
  let w' := (main epoch_to_datetime params w).1 in
  Pd.len df = 2 * 100000 ∧
  Py.enumerate (Py.range 0 (Pd.len df) 100000) = [(0, 0); (1, 100000)] ∧
  ¬ has_empty_range_iteration (Pd.len df) ∧
  new_lines w w' =
    [DetectedParquet; ReadingParquet "trips.parquet"; Loaded 200000;
     Columns ["id"; "pickup_datetime"; "fare"]; Inserting "trips";
     InsertedParquet 1 3 100000 200000; InsertedParquet 2 3 200000 200000; Completed] ∧
  Pd.len <$> appended (new_ops w w') = [100000; 100000].
Proof.
  assert (Pd.len (trips 200000) = 200000) as Hlen by (vm_compute; reflexivity).
  assert (Py.enumerate (Py.range 0 (Pd.len (trips 200000)) 100000)
          = [(0, 0); (1, 100000)]) as Hiter by (vm_compute; reflexivity).
  split; [vm_compute; reflexivity |]. split; [exact Hiter |]. split.
  - intros (i & a & Hin & Hle). rewrite Hiter in Hin. rewrite Hlen in Hle.
    apply elem_of_cons in Hin as [[= -> ->] | Hin]; [lia |].
    apply elem_of_cons in Hin as [[= -> ->] | Hin]; [lia |].
    by apply elem_of_nil in Hin.
  - split; vm_compute; reflexivity.
Qed.

Lemma C3_exact_multiple_runs_full_batches_only_witness :
  let df := trips 200000 in
  let params := sample_params "trips.parquet" in
  let w := sample_world "trips.parquet" (ParquetData df) in
  let w' := (main epoch_to_datetime params w).1 in
  Py.range 0 (Pd.len df) 100000 = (λ j : nat, Z.of_nat j * 100000) <$> seq 0 (Z.to_nat 2) ∧
  ¬ has_empty_range_iteration (Pd.len df) ∧
  (main epoch_to_datetime params w).2 = Ok tt ∧
  length (appended (new_ops w w')) = Z.to_nat 2 ∧
  Forall (λ chunk, Pd.len chunk = 100000) (appended (new_ops w w')) ∧
  rows_written (new_ops w w') = Pd.len df.
Proof.
  apply (C3_exact_multiple_runs_full_batches_only epoch_to_datetime
           (sample_params "trips.parquet")
           (sample_world "trips.parquet" (ParquetData (trips 200000)))
           (trips 200000) (trips 200000) 2);
    [vm_compute; reflexivity | reflexivity | reflexivity | lia | vm_compute; reflexivity].
Defined.

Lemma C9_total_chunks_is_one_too_many_witness :
  let df := trips 100000 in
  let params := sample_params "trips.parquet" in
  let w := sample_world "trips.parquet" (ParquetData df) in
  let w' := (main epoch_to_datetime params w).1 in
  length (appended (new_ops w w')) = Z.to_nat 1 ∧
  Pd.len df `div` 100000 + 1 = 1 + 1 ∧
  new_lines w w' =
    [DetectedParquet; ReadingParquet (file_path params); Loaded (Pd.len df);
     Columns (Pd.columns df); Inserting (table_name params)] ++
    ((λ j : nat, InsertedParquet (Z.of_nat j + 1) (1 + 1)
                   ((Z.of_nat j + 1) * 100000) (Pd.len df)) <$> seq 0 (Z.to_nat 1)) ++
    [Completed] ∧
  ∃ before,
    new_lines w w' =
      before ++ [InsertedParquet 1 (1 + 1) (Pd.len df) (Pd.len df); Completed].
Proof.
  apply (C9_total_chunks_is_one_too_many epoch_to_datetime
           (sample_params "trips.parquet")
           (sample_world "trips.parquet" (ParquetData (trips 100000)))
           (trips 100000) 1);
    [vm_compute; reflexivity | reflexivity | lia | vm_compute; reflexivity
    | vm_compute; reflexivity].
Defined.

(** ** Running twice, and sources without rows *)

Section Reruns.

Variable to_datetime : Series → option Series.
Implicit Types (w : World) (df chunk : DataFrame) (params : Params).

(** C8: when a run went through, running the loader again on the world it
    left goes through as well and leaves every table as the first run
    left it - the destination table in particular, with the same columns
    in the same order and the same rows. *)
Theorem C8_second_run_leaves_same_tables params w :
  (main to_datetime params w).2 = Ok tt →
  let w1 := (main to_datetime params w).1 in
  let w2 := (main to_datetime params w1).1 in
  (main to_datetime params w1).2 = Ok tt ∧
  db w2 = db w1 ∧
  db w2 !! table_name params = db w1 !! table_name params.
Proof.
  intros Hok. cbv zeta.
  assert (∃ w2, main to_datetime params (main to_datetime params w).1 = (w2, Ok tt) ∧
                db w2 = db (main to_datetime params w).1) as (w2 & -> & Hdb).
  { destruct (main_ok_run to_datetime params w Hok)
      as [df df' Hp Hfile Hn | df batches Hp Hc Hfile Hco | Hp Hc].
    - eexists. split; [apply main_ok; by eapply RanParquet |].
      unfold parquet_done. cbn [db]. apply written_twice.
    - eexists. split; [apply main_ok; by eapply RanCsv |].
      unfold csv_done. cbn [db]. apply written_twice.
    - eexists. split; [apply main_ok; by eapply RanUnsupported | done]. }
  cbn [fst snd]. by rewrite Hdb.
Qed.

Lemma coerced_from_empty df batches :
  Pd.len df = 0 →
  coerced_from to_datetime df batches ↔
  ∃ chunk, batches = [chunk] ∧
           coerce to_datetime (detect_datetime_columns (Pd.columns df)) df = Ok chunk.
Proof.
  intros Hlen. unfold coerced_from, csv_chunks. rewrite Hlen. cbn [Z.eqb]. split.
  - intros (chunk & cs & Hc & ->%Forall2_nil_inv_l & ->)%Forall2_cons_inv_l. by eauto.
  - intros (chunk & -> & Hc). by repeat constructor.
Qed.

(** C10 (amended): a Parquet source without rows makes the loop run zero
    times: no [to_sql] is issued, every table stays as it was, and the run
    ends normally on the success line.  A CSV source without data rows
    still yields one chunk, empty: the loop runs once, replaces the
    destination table by an empty one with the chunk's columns, appends
    nothing to it, and the run ends normally on the success line. *)
Theorem C10_sources_without_rows params w df :
  Pd.len df = 0 →
  let w' := (main to_datetime params w).1 in
  (∀ df',
     Py.endswith (file_path params) ".parquet" = true →
     files w !! file_path params = Some (ParquetData df) →
     normalize to_datetime (Pd.select_dtypes_datetime64 df) df = Ok df' →
     (main to_datetime params w).2 = Ok tt ∧
     new_ops w w' = [] ∧ db w' = db w ∧
     new_lines w w' =
       [DetectedParquet; ReadingParquet (file_path params); Loaded 0;
        Columns (Pd.columns df); Inserting (table_name params); Completed]) ∧
  (∀ chunk,
     Py.endswith (file_path params) ".parquet" = false →
     Py.endswith (file_path params) ".csv" || Py.endswith (file_path params) ".csv.gz" = true →
     files w !! file_path params = Some (CsvData df) →
     coerce to_datetime (detect_datetime_columns (Pd.columns df)) df = Ok chunk →
     (main to_datetime params w).2 = Ok tt ∧
     new_ops w w' =
       [SqlReplace (table_name params) (Pd.head chunk 0);
        SqlAppend (table_name params) chunk] ∧
     Pd.len chunk = 0 ∧
     db w' = <[table_name params := mkTable (Pd.schema_of chunk) []]> (db w) ∧
     new_lines w w' =
       [DetectedCsv; ReadingCsv (file_path params); Columns (Pd.columns df);
        DetectedDatetime (detect_datetime_columns (Pd.columns df));
        Inserting (table_name params); InsertedCsv 1 0; Completed]).
Proof.
  intros Hlen. cbv zeta. split.
  - intros df' Hp Hfile Hn.
    assert (main to_datetime params w =
            (parquet_done params df df' (printed DetectedParquet w), Ok tt)) as ->.
    { apply main_ok. by eapply RanParquet. }
    assert (Pd.len df' = 0) as Hlen'.
    { apply normalize_shape in Hn as [Hidx _]. unfold Pd.len in *. by rewrite Hidx. }
    assert (parquet_batches df' = []) as Hnone.
    { unfold parquet_batches. by rewrite Hlen'. }
    cbn [fst snd]. split; [done |].
    unfold parquet_done, new_ops, new_lines, printed. cbn [sql_log db stdout].
    rewrite Hnone, Hlen', Hlen. cbn [batch_ops written Py.range].
    change (Py.range 0 0 100000) with (@nil Z). cbn [progress_lines].
    unfold batch_ops. cbn. rewrite app_nil_r, drop_all, <- app_assoc, drop_app_length.
    done.
  - intros chunk Hp Hc Hfile Hco.
    assert (main to_datetime params w =
            (csv_done params df [chunk] (printed DetectedCsv w), Ok tt)) as ->.
    { apply main_ok. eapply RanCsv; [done .. |]. apply coerced_from_empty; by eauto. }
    assert (index chunk = []) as Hidx.
    { apply coerce_shape in Hco as [-> _]. unfold Pd.len in Hlen.
      destruct (index df); [done | simpl in Hlen; lia]. }
    assert (Pd.len chunk = 0) as Hlen' by (unfold Pd.len; by rewrite Hidx).
    assert (Pd.rows_of chunk = []) as Hrows by (unfold Pd.rows_of; by rewrite Hidx).
    cbn [fst snd]. split; [done |].
    unfold csv_done, new_ops, new_lines, printed, csv_chunks. cbn [sql_log db stdout].
    rewrite Hlen. cbn [Z.eqb progress_lines written fmap list_fmap concat].
    rewrite batch_ops_cons, Hrows, drop_app_length. unfold csv_line. rewrite Hlen'.
    split; [done |]. split; [done |]. split; [done |].
    by rewrite <- app_assoc, drop_app_length.
Qed.

End Reruns.

Lemma C8_second_run_leaves_same_tables_witness :
  let params := sample_params "trips.csv.gz" in
  let w := sample_world "trips.csv.gz" (CsvData (trips 250000)) in
  let w1 := (main epoch_to_datetime params w).1 in
  let w2 := (main epoch_to_datetime params w1).1 in
  (main epoch_to_datetime params w1).2 = Ok tt ∧
  db w2 = db w1 ∧
  db w2 !! table_name params = db w1 !! table_name params.
Proof.
  apply (C8_second_run_leaves_same_tables epoch_to_datetime
           (sample_params "trips.csv.gz")
           (sample_world "trips.csv.gz" (CsvData (trips 250000))));
    vm_compute; reflexivity.
Defined.

(** C10 as first stated fails on the CSV path: a CSV file with a header
    and no data row makes the loop run once, and the table left by an
    earlier load, with its two rows, is replaced by an empty one. *)
Lemma C10_csv_without_rows_counterexample :
  let params := sample_params "trips.csv" in
  let w := sample_world "trips.csv" (CsvData (trips 0)) in
  let w' := (main epoch_to_datetime params w).1 in
  Pd.len (trips 0) = 0 ∧
  (main epoch_to_datetime params w).2 = Ok tt ∧
  is_replace <$> new_ops w w' = [true; false] ∧
  new_lines w w' =
    [DetectedCsv; ReadingCsv "trips.csv"; Columns ["id"; "pickup_datetime"; "fare"];
     DetectedDatetime ["pickup_datetime"]; Inserting "trips"; InsertedCsv 1 0; Completed] ∧
  db w !! "trips" = Some (mkTable [("old", Object)] [[VStr "x"]; [VStr "y"]]) ∧
  db w' !! "trips" =
    Some (mkTable [("id", Int64); ("pickup_datetime", Datetime64); ("fare", Int64)] []).
Proof. cbv zeta. repeat apply conj; vm_compute; reflexivity. Qed.

Lemma C10_sources_without_rows_witness :
  (let params := sample_params "trips.parquet" in
   let w := sample_world "trips.parquet" (ParquetData (trips 0)) in
   let w' := (main epoch_to_datetime params w).1 in
   (main epoch_to_datetime params w).2 = Ok tt ∧
   new_ops w w' = [] ∧ db w' = db w ∧
   new_lines w w' =
     [DetectedParquet; ReadingParquet (file_path params); Loaded 0;
      Columns (Pd.columns (trips 0)); Inserting (table_name params); Completed]) ∧
  (let params := sample_params "trips.csv" in
   let w := sample_world "trips.csv" (CsvData (trips 0)) in
   let w' := (main epoch_to_datetime params w).1 in
   let chunk := Pd.setitem (trips 0) "pickup_datetime" (mkSeries Datetime64 []) in
   (main epoch_to_datetime params w).2 = Ok tt ∧
   new_ops w w' =
     [SqlReplace (table_name params) (Pd.head chunk 0);
      SqlAppend (table_name params) chunk] ∧
   Pd.len chunk = 0 ∧
   db w' = <[table_name params := mkTable (Pd.schema_of chunk) []]> (db w) ∧
   new_lines w w' =
     [DetectedCsv; ReadingCsv (file_path params); Columns (Pd.columns (trips 0));
      DetectedDatetime (detect_datetime_columns (Pd.columns (trips 0)));
      Inserting (table_name params); InsertedCsv 1 0; Completed]).
Proof.
  split.
  - apply (proj1 (C10_sources_without_rows epoch_to_datetime
                    (sample_params "trips.parquet")
                    (sample_world "trips.parquet" (ParquetData (trips 0)))
                    (trips 0) eq_refl) (trips 0)); reflexivity.
  - apply (proj2 (C10_sources_without_rows epoch_to_datetime
                    (sample_params "trips.csv")
                    (sample_world "trips.csv" (CsvData (trips 0)))
                    (trips 0) eq_refl)
             (Pd.setitem (trips 0) "pickup_datetime" (mkSeries Datetime64 [])));
      reflexivity.
Defined.

(** ** Datetime columns on the CSV path *)

Section CsvColumns.

Variable to_datetime : Series → option Series.
Implicit Types (w : World) (df raw chunk : DataFrame) (params : Params).

Lemma ingest_csv_ok_run params w df :
  files w !! file_path params = Some (CsvData df) →
  (ingest_csv to_datetime params w).2 = Ok tt →
  ∃ batches,
    coerced_from to_datetime df batches ∧
    ingest_csv to_datetime params w = (csv_done params df batches w, Ok tt) ∧
    appended (new_ops w (ingest_csv to_datetime params w).1) = batches.
Proof.
  intros Hfile Hok.
  destruct (ingest_csv to_datetime params w) as [w' r] eqn:Hrun. simpl in Hok. subst r.
  apply ingest_csv_inv in Hrun as (df0 & batches & Hfile0 & Hco & ->).
  assert (df0 = df) as -> by congruence.
  exists batches. split; [done |]. split; [done |]. cbn [fst].
  rewrite (new_ops_app _ _ (batch_ops (table_name params) batches)) by done.
  apply appended_batch_ops.
Qed.

(** C6: on the CSV path the detected columns are those of the 100-row
    sample's column list whose lowercased name contains "date" or
    contains "time"; the list is printed, and in every chunk written each
    detected column that the chunk has holds the result of [to_datetime]
    on the column read. *)
Theorem C6_detected_columns_are_coerced params w df :
  files w !! file_path params = Some (CsvData df) →
  NoDup (Pd.columns df) →
  (ingest_csv to_datetime params w).2 = Ok tt →
  let w' := (ingest_csv to_datetime params w).1 in
  let df_sample := Pd.head df 100 in
  let detected := detect_datetime_columns (Pd.columns df_sample) in
  Pd.len df_sample = Z.min 100 (Pd.len df) ∧
  (∀ col, col ∈ detected ↔
          col ∈ Pd.columns df_sample ∧
          ((∃ pre post, Py.lower col = pre +:+ "date" +:+ post) ∨
           (∃ pre post, Py.lower col = pre +:+ "time" +:+ post))) ∧
  DetectedDatetime detected ∈ new_lines w w' ∧
  Forall2 (λ raw chunk,
             ∀ col, col ∈ detected → col ∈ Pd.columns raw →
                    ∃ s s', Pd.getitem raw col = Some s ∧ to_datetime s = Some s' ∧
                            Pd.getitem chunk col = Some s')
    (csv_chunks df 100000) (appended (new_ops w w')).
Proof.
  intros Hfile Hnd Hok. cbv zeta.
  destruct (ingest_csv_ok_run params w df Hfile Hok) as (batches & Hco & Hrun & ->).
  assert (Pd.columns (Pd.head df 100) = Pd.columns df) as Hcols by apply columns_iloc.
  rewrite Hrun. cbn [fst].
  split; [|split; [|split]].
  - unfold Pd.len, Pd.head, Pd.iloc, Py.slice. cbn [index].
    rewrite drop_0, length_take. lia.
  - intros col. by rewrite elem_of_detected, !contains_spec.
  - rewrite Hcols. erewrite new_lines_app; [|reflexivity]. set_solver.
  - eapply Forall2_impl; [exact Hco |]. intros raw chunk Hc col Hin Hcol.
    rewrite Hcols in Hin.
    apply (coerce_converted to_datetime (detect_datetime_columns (Pd.columns df)));
      [by apply NoDup_filter | exact Hc | exact Hin | exact Hcol].
Qed.

(** C7: every chunk is written with the row labels and the column list it
    was read with, and each column whose name is not a detected one is
    written in its place with the type and the values it was read with. *)
Theorem C7_other_columns_written_unchanged params w df :
  files w !! file_path params = Some (CsvData df) →
  (ingest_csv to_datetime params w).2 = Ok tt →
  let w' := (ingest_csv to_datetime params w).1 in
  let detected := detect_datetime_columns (Pd.columns (Pd.head df 100)) in
  Forall2 (λ raw chunk,
             index chunk = index raw ∧ Pd.columns chunk = Pd.columns raw ∧
             ∀ (j : nat) name s,
               name ∉ detected → data raw !! j = Some (name, s) →
               data chunk !! j = Some (name, s))
    (csv_chunks df 100000) (appended (new_ops w w')).
Proof.
  intros Hfile Hok. cbv zeta.
  destruct (ingest_csv_ok_run params w df Hfile Hok) as (batches & Hco & _ & ->).
  assert (Pd.columns (Pd.head df 100) = Pd.columns df) as Hsample by apply columns_iloc.
  eapply Forall2_impl; [exact Hco |]. intros raw chunk Hc.
  destruct (coerce_shape _ _ _ _ Hc) as [Hidx Hcols].
  split; [done |]. split; [done |]. intros j name s Hname Hj.
  rewrite Hsample in Hname.
  by apply (coerce_positions to_datetime (detect_datetime_columns (Pd.columns df)) raw).
Qed.

End CsvColumns.

Lemma C6_detected_columns_are_coerced_witness :
  let params := sample_params "trips.csv" in
  let df := trips 250000 in
  let w := sample_world "trips.csv" (CsvData df) in
  let w' := (ingest_csv epoch_to_datetime params w).1 in
  let df_sample := Pd.head df 100 in
  let detected := detect_datetime_columns (Pd.columns df_sample) in
  Pd.len df_sample = Z.min 100 (Pd.len df) ∧
  (∀ col, col ∈ detected ↔
          col ∈ Pd.columns df_sample ∧
          ((∃ pre post, Py.lower col = pre +:+ "date" +:+ post) ∨
           (∃ pre post, Py.lower col = pre +:+ "time" +:+ post))) ∧
  DetectedDatetime detected ∈ new_lines w w' ∧
  Forall2 (λ raw chunk,
             ∀ col, col ∈ detected → col ∈ Pd.columns raw →
                    ∃ s s', Pd.getitem raw col = Some s ∧ epoch_to_datetime s = Some s' ∧
                            Pd.getitem chunk col = Some s')
    (csv_chunks df 100000) (appended (new_ops w w')).
Proof.
  apply (C6_detected_columns_are_coerced epoch_to_datetime (sample_params "trips.csv")
           (sample_world "trips.csv" (CsvData (trips 250000))) (trips 250000)).
  - reflexivity.
  - apply (bool_decide_unpack _). vm_compute. reflexivity.
  - vm_compute. reflexivity.
Defined.

Lemma C7_other_columns_written_unchanged_witness :
  let params := sample_params "trips.csv" in
  let df := trips 250000 in
  let w := sample_world "trips.csv" (CsvData df) in
  let w' := (ingest_csv epoch_to_datetime params w).1 in
  let detected := detect_datetime_columns (Pd.columns (Pd.head df 100)) in
  Forall2 (λ raw chunk,
             index chunk = index raw ∧ Pd.columns chunk = Pd.columns raw ∧
             ∀ (j : nat) name s,
               name ∉ detected → data raw !! j = Some (name, s) →
               data chunk !! j = Some (name, s))
    (csv_chunks df 100000) (appended (new_ops w w')).
Proof.
  apply (C7_other_columns_written_unchanged epoch_to_datetime (sample_params "trips.csv")
           (sample_world "trips.csv" (CsvData (trips 250000))) (trips 250000)).
  - reflexivity.
  - vm_compute. reflexivity.
Defined.

(** * Further properties *)

(** ** A loop that may stop on an exception *)

Section LoopStops.

Context {X : Type}.
Variables (prep : X → Result DataFrame) (line : Z → X → DataFrame → Line).
Variables (T : string) (engine : Engine).

Implicit Types (w : World) (xs : list X) (batches : list DataFrame) (t : Table).

Local Abbreviation body := (loop_body prep line T engine).


Lemma loop_tail_stops xs i w t :
  0 < i → db w !! T = Some t →
  Forall (λ chunk, Pd.columns chunk = (schema t).*1) (obtained prep xs).1 →
  for_each (Py.enumerate_from i xs) body w =
    (mkWorld (files w) (stdout w ++ progress_lines line i xs (obtained prep xs).1)
       (engines w)
       (sql_log w ++ (SqlAppend T <$> (obtained prep xs).1))
       (<[T := mkTable (schema t)
                 (rows t ++ concat (Pd.rows_of <$> (obtained prep xs).1))]> (db w)),
     outcome (obtained prep xs).2).
Proof.
  revert i w t. induction xs as [|x xs IH]; intros i w t Hi Ht Hcols.
  - simpl. rewrite !app_nil_r. destruct t; simpl. rewrite insert_id by done.
    by rewrite world_eta.
  - cbn [Py.enumerate_from for_each]. rewrite bind_run, loop_body_run.
    cbn [obtained] in *. destruct (prep x) as [chunk|e] eqn:Hx; cbn [fst snd] in *.
    + apply Forall_cons in Hcols as [Hc Hcols].
      rewrite write_batch_next by lia.
      rewrite (to_sql_append_ok T engine chunk w t) by done.
      unfold print at 1. cbn [files stdout engines sql_log db].
      rewrite (IH (i + 1) _ (mkTable (schema t) (rows t ++ Pd.rows_of chunk)));
        [| lia | apply lookup_insert_eq | done].
      cbn [files stdout engines sql_log db schema rows progress_lines].
      rewrite insert_insert_eq, <- !app_assoc. simpl. done.
    + destruct xs; simpl; rewrite !app_nil_r; destruct t; simpl;
        rewrite insert_id by done; by rewrite world_eta.
Qed.

(** Whatever way the loop ends, it has written the batches it obtained. *)
Lemma loop_stops xs w :
  uniform (obtained prep xs).1 →
  for_each (Py.enumerate xs) body w =
    (mkWorld (files w) (stdout w ++ progress_lines line 0 xs (obtained prep xs).1)
       (engines w) (sql_log w ++ batch_ops T (obtained prep xs).1)
       (written T (obtained prep xs).1 (db w)),
     outcome (obtained prep xs).2).
Proof.
  intros Huni. destruct xs as [|x xs].
  - simpl. unfold batch_ops. simpl. by rewrite !app_nil_r, world_eta.
  - unfold Py.enumerate. cbn [Py.enumerate_from for_each].
    rewrite bind_run, loop_body_run.
    cbn [obtained] in *. destruct (prep x) as [chunk|e] eqn:Hx; cbn [fst snd] in *.
    + specialize (Huni chunk eq_refl). apply Forall_cons in Huni as [_ Huni].
      rewrite write_batch_first.
      unfold print at 1. cbn [files stdout engines sql_log db].
      rewrite (loop_tail_stops xs (0 + 1) _
                 (mkTable (Pd.schema_of chunk) (Pd.rows_of chunk)));
        [| lia | apply lookup_insert_eq |].
      * cbn [files stdout engines sql_log db schema rows progress_lines written].
        rewrite insert_insert_eq, batch_ops_cons, <- !app_assoc. done.
      * cbn [schema]. by rewrite schema_of_columns.
    + unfold batch_ops. simpl. by rewrite !app_nil_r, world_eta.
Qed.

End LoopStops.

(** ** [main] from any world *)

Section Summaries.

Variable to_datetime : Series → option Series.
Implicit Types (w : World) (df raw chunk : DataFrame) (params : Params).

Lemma obtained_columns (prep : DataFrame → Result DataFrame) (cols : list string)
    (raws : list DataFrame) :
  (∀ raw chunk, prep raw = Ok chunk → Pd.columns chunk = Pd.columns raw) →
  Forall (λ raw, Pd.columns raw = cols) raws →
  Forall (λ chunk, Pd.columns chunk = cols) (obtained prep raws).1.
Proof.
  intros Hprep. induction 1 as [|raw raws Hraw _ IH]; [constructor |].
  cbn [obtained]. destruct (prep raw) as [chunk|e] eqn:Hc; cbn [fst]; [|constructor].
  constructor; [|done]. by rewrite (Hprep _ _ Hc).
Qed.

Lemma obtained_coerce_columns df :
  Forall (λ chunk, Pd.columns chunk = Pd.columns df)
    (obtained (coerce to_datetime (detect_datetime_columns (Pd.columns df)))
       (csv_chunks df 100000)).1.
Proof.
  apply obtained_columns; [|apply csv_chunks_columns].
  intros raw chunk Hc. by apply coerce_shape in Hc as [_ ?].
Qed.

Lemma same_columns_uniform (cols : list string) (batches : list DataFrame) :
  Forall (λ chunk, Pd.columns chunk = cols) batches → uniform batches.
Proof.
  intros Hall chunk Hhd.
  assert (Pd.columns chunk = cols) as ->; [|done].
  destruct batches; simplify_eq/=. by apply Forall_cons in Hall as [? _].
Qed.

(** The CSV path, once the file is read, however the loop ends. *)
Lemma ingest_csv_any params df w :
  files w !! file_path params = Some (CsvData df) →
  let o := obtained (coerce to_datetime (detect_datetime_columns (Pd.columns df)))
             (csv_chunks df 100000) in
  ingest_csv to_datetime params w = (csv_after params df o.1 o.2 w, outcome o.2).
Proof.
  intros Hfile o. rewrite (ingest_csv_head to_datetime params df w Hfile), bind_run.
  rewrite loop_stops;
    [| eapply same_columns_uniform, obtained_coerce_columns].
  fold o. unfold csv_after. destruct o.2 as [e|]; cbn [outcome].
  - cbn [files stdout engines sql_log db]. by rewrite app_nil_r, <- !app_assoc.
  - unfold print. cbn [files stdout engines sql_log db]. by rewrite <- !app_assoc.
Qed.

Lemma bind_printed {B} l (f : unit → M B) w : (print l ≫= f) w = f tt (printed l w).
Proof. reflexivity. Qed.

(** [main] does what the summary of the files says, from any world. *)
Lemma main_summary params w :
  main to_datetime params w =
    (after (table_name params) (summarize to_datetime params (files w)) w,
     s_result (summarize to_datetime params (files w))).
Proof.
  assert (∀ l, files (printed l w) = files w) as Hpr by done.
  unfold main, summarize.
  destruct (Py.endswith (file_path params) ".parquet").
  - rewrite bind_printed.
    destruct (files w !! file_path params) as [[df|df]|] eqn:Hfile.
    + rewrite (ingest_parquet_run to_datetime params df (printed DetectedParquet w) Hfile).
      destruct (normalize _ _ df) as [df'|e]; unfold after, parquet_done, printed;
        cbn [files stdout engines sql_log db s_lines s_engines s_batches s_result
             batch_ops written];
        [by rewrite <- !app_assoc |].
      unfold batch_ops. simpl. by rewrite app_nil_r, <- !app_assoc.
    + unfold ingest_parquet.
      rewrite bind_create_engine, bind_print, bind_run.
      unfold read_parquet. cbn [files stdout engines sql_log db]. rewrite Hpr, Hfile.
      unfold after, batch_ops, printed. simpl. by rewrite app_nil_r, <- !app_assoc.
    + unfold ingest_parquet.
      rewrite bind_create_engine, bind_print, bind_run.
      unfold read_parquet. cbn [files stdout engines sql_log db]. rewrite Hpr, Hfile.
      unfold after, batch_ops, printed. simpl. by rewrite app_nil_r, <- !app_assoc.
  - destruct (_ || _).
    + rewrite bind_printed.
      destruct (files w !! file_path params) as [[df|df]|] eqn:Hfile.
      * unfold ingest_csv.
        rewrite bind_create_engine, bind_print, bind_run.
        unfold read_csv_nrows. cbn [files stdout engines sql_log db]. rewrite Hpr, Hfile.
        unfold after, batch_ops, printed. simpl. by rewrite app_nil_r, <- !app_assoc.
      * rewrite (ingest_csv_any params df (printed DetectedCsv w) Hfile).
        unfold after, csv_after, printed.
        cbn [files stdout engines sql_log db s_lines s_engines s_batches s_result].
        by rewrite <- !app_assoc.
      * unfold ingest_csv.
        rewrite bind_create_engine, bind_print, bind_run.
        unfold read_csv_nrows. cbn [files stdout engines sql_log db]. rewrite Hpr, Hfile.
        unfold after, batch_ops, printed. simpl. by rewrite app_nil_r, <- !app_assoc.
    + unfold after, print, batch_ops. simpl. by rewrite !app_nil_r.
Qed.

End Summaries.

(** ** The exceptions a run can end with *)

Section Errors.

Variable to_datetime : Series → option Series.
Implicit Types (w : World) (df raw chunk : DataFrame) (params : Params) (e : Exn).






End Errors.

(** ** What a run touches, and how it can fail *)

Section Frame.

Variable to_datetime : Series → option Series.
Implicit Types (w : World) (df raw chunk : DataFrame) (params : Params) (e : Exn).

Lemma main_result params w :
  (main to_datetime params w).2 = s_result (summarize to_datetime params (files w)).
Proof. by rewrite main_summary. Qed.

Lemma main_world params w :
  (main to_datetime params w).1 =
    after (table_name params) (summarize to_datetime params (files w)) w.
Proof. by rewrite main_summary. Qed.

Lemma new_ops_after T s w : new_ops w (after T s w) = batch_ops T (s_batches s).
Proof. by apply new_ops_app. Qed.

Lemma new_lines_after T s w : new_lines w (after T s w) = s_lines s.
Proof. by apply new_lines_app. Qed.

(** X1: whatever way a run ends, every table but the destination table is
    as it was, and so is every file. *)
Theorem other_tables_are_untouched params w (other : string) :
  other ≠ table_name params →
  let w' := (main to_datetime params w).1 in
  db w' !! other = db w !! other ∧ files w' = files w.
Proof.
  intros Hne. cbv zeta. rewrite main_world. unfold after. cbn [db files].
  split; [|done]. by apply written_other.
Qed.





End Frame.

Section Outcomes.

Variable to_datetime : Series → option Series.
Implicit Types (w : World) (df raw chunk : DataFrame) (params : Params) (e : Exn).



(** X7: what a run prints, which [to_sql] calls it issues and how it ends
    depend on the files only, not on what was printed before nor on what
    the server holds; and once a batch is written, so does the destination
    table it leaves. *)
Theorem run_depends_on_files_only params w1 w2 :
  files w1 = files w2 →
  let w1' := (main to_datetime params w1).1 in
  let w2' := (main to_datetime params w2).1 in
  (main to_datetime params w1).2 = (main to_datetime params w2).2 ∧
  new_lines w1 w1' = new_lines w2 w2' ∧
  new_ops w1 w1' = new_ops w2 w2' ∧
  (appended (new_ops w1 w1') ≠ [] →
   db w1' !! table_name params = db w2' !! table_name params).
Proof.
  intros Hfiles. cbv zeta.
  rewrite !main_result, !main_world, !new_ops_after, !new_lines_after, Hfiles.
  do 3 (split; [done |]). rewrite appended_batch_ops. unfold after. cbn [db].
  destruct (s_batches _) as [|chunk batches]; [done |]. intros _.
  by rewrite !(written_lookup _ _ chunk).
Qed.



End Outcomes.

(** ** What ends up in the destination table *)

Section TableContent.

Variable to_datetime : Series → option Series.
Implicit Types (w : World) (df raw chunk : DataFrame) (params : Params).
Implicit Types (l : list (string * Series)) (cols : list string).








Lemma csv_chunks_head df :
  ∃ chunk, head (csv_chunks df 100000) = Some chunk ∧
           Pd.schema_of chunk = Pd.schema_of df ∧ Pd.columns chunk = Pd.columns df.
Proof.
  unfold csv_chunks. destruct (Z.eqb_spec (Pd.len df) 0) as [H0|Hn0]; [by eauto |].
  destruct (range_head (Pd.len df) 100000) as [rest ->]; [pose proof (len_nonneg df); lia.. |].
  eexists. split; [done |]. by rewrite schema_of_iloc, columns_iloc.
Qed.


(** X11: after a run that went through and wrote a batch, the destination
    table has the file's column names, in the file's order. *)
Theorem table_columns_are_file_columns params w df :
  files w !! file_path params = Some (ParquetData df) ∧ 0 < Pd.len df ∨
  files w !! file_path params = Some (CsvData df) →
  supported (file_path params) = true →
  (main to_datetime params w).2 = Ok tt →
  ∃ t, db (main to_datetime params w).1 !! table_name params = Some t ∧
       (schema t).*1 = Pd.columns df.
Proof.
  intros Hfile Hsup Hok.
  destruct (main_ok_run to_datetime params w Hok)
    as [df0 df' Hp Hfile0 Hn | df0 batches Hp Hc Hfile0 Hco | Hp Hc].
  - destruct Hfile as [[Hfile Hlen]|Hfile]; [|congruence].
    assert (df0 = df) as -> by congruence.
    pose proof (normalize_shape _ _ _ _ Hn) as [Hidx Hcols].
    assert (0 < Pd.len df') as Hlen' by (unfold Pd.len in *; by rewrite Hidx).
    destruct (range_head (Pd.len df') 100000 Hlen') as [rest Hrange]; [lia |].
    eexists. cbn [parquet_done db]. split.
    + apply written_lookup. unfold parquet_batches. by rewrite Hrange.
    + cbn [schema]. by rewrite schema_of_iloc, schema_of_columns.
  - destruct Hfile as [[Hfile Hlen]|Hfile]; [congruence |].
    assert (df0 = df) as -> by congruence.
    pose proof (coerced_columns _ _ _ Hco) as Hcols.
    destruct (csv_chunks_head df) as (raw & Hhd & _).
    destruct batches as [|chunk batches].
    { unfold coerced_from in Hco. apply Forall2_nil_inv_r in Hco.
      rewrite Hco in Hhd. done. }
    apply Forall_cons in Hcols as [Hchunk _].
    eexists. cbn [csv_done db]. split; [by apply written_lookup |].
    cbn [schema]. by rewrite schema_of_columns.
  - unfold supported in Hsup. rewrite Hp, orb_false_l, Hc in Hsup. done.
Qed.

End TableContent.

(** ** The sizes of the Parquet batches and the progress lines *)

Section BatchSizes.

Variable to_datetime : Series → option Series.
Implicit Types (w : World) (df chunk : DataFrame) (params : Params).

Lemma ceil_bounds n : 0 ≤ n →
  let q := (n + 99999) `div` 100000 in
  0 ≤ q ∧ n ≤ q * 100000 ∧ (q - 1) * 100000 < n.
Proof.
  intros Hn q. pose proof (Z.div_mod (n + 99999) 100000 ltac:(lia)) as Hdm.
  pose proof (Z.mod_pos_bound (n + 99999) 100000 ltac:(lia)) as Hr.
  fold q in Hdm. assert (0 ≤ q) by (apply Z.div_pos; lia). lia.
Qed.

Lemma parquet_batches_seq df :
  parquet_batches df =
    (λ j : nat, Pd.iloc df (Z.of_nat j * 100000)
                  (Z.min (Z.of_nat j * 100000 + 100000) (Pd.len df)))
      <$> seq 0 (Z.to_nat ((Pd.len df + 99999) `div` 100000)).
Proof.
  unfold parquet_batches.
  rewrite range_from_zero, range_len_pos by (pose proof (len_nonneg df); lia).
  replace (Pd.len df + 100000 - 1) with (Pd.len df + 99999) by lia.
  by rewrite <- list_fmap_compose.
Qed.

(** X12: the Parquet loop cuts a frame of [n] rows into [ceil (n / 100000)]
    batches; none is empty, none has more than 100000 rows, and all but
    the last have exactly 100000.  No iteration ever has an empty range,
    whatever [n] is. *)
Theorem parquet_batches_are_full_but_the_last df :
  Z.of_nat (length (parquet_batches df)) = (Pd.len df + 99999) `div` 100000 ∧
  Forall (λ chunk, 0 < Pd.len chunk ≤ 100000) (parquet_batches df) ∧
  (∀ (i : nat) chunk,
     parquet_batches df !! i = Some chunk →
     (S i < length (parquet_batches df))%nat → Pd.len chunk = 100000) ∧
  ¬ has_empty_range_iteration (Pd.len df).
Proof.
  pose proof (len_nonneg df) as Hn.
  destruct (ceil_bounds (Pd.len df) Hn) as (Hq & Hup & Hlow).
  rewrite parquet_batches_seq, length_fmap, length_seq.
  split; [lia |]. split; [|split].
  - apply Forall_fmap, Forall_forall. intros j [_ Hj]%elem_of_seq. simpl.
    rewrite len_iloc; lia.
  - intros i chunk [j [-> [-> Hj]%lookup_seq]]%list_lookup_fmap_Some Hi.
    rewrite len_iloc; lia.
  - intros (i & a & Hin & Hle). unfold Py.enumerate in Hin.
    rewrite range_from_zero, range_len_pos, enumerate_from_fmap_seq in Hin by lia.
    replace (Pd.len df + 100000 - 1) with (Pd.len df + 99999) in Hin by lia.
    apply list_elem_of_fmap in Hin as (j & [= -> ->] & [_ Hj]%elem_of_seq). lia.
Qed.

(** X13: the total that the Parquet progress lines show is the number of
    batches written exactly when the row count is not a multiple of
    100000; for a multiple, zero included, it is one more. *)
Theorem progress_total_is_right_unless_exact_multiple params w df :
  Py.endswith (file_path params) ".parquet" = true →
  files w !! file_path params = Some (ParquetData df) →
  (main to_datetime params w).2 = Ok tt →
  let written := Z.of_nat (length (appended (new_ops w (main to_datetime params w).1))) in
  let total_chunks := Pd.len df `div` 100000 + 1 in
  (Pd.len df `mod` 100000 ≠ 0 → total_chunks = written) ∧
  (Pd.len df `mod` 100000 = 0 → total_chunks = written + 1).
Proof.
  intros Hp Hfile Hok. cbv zeta.
  destruct (main_ok_run to_datetime params w Hok)
    as [df0 df' _ Hfile0 Hn | df0 batches Hp0 | Hp0]; [| congruence ..].
  assert (df0 = df) as -> by congruence.
  rewrite (new_ops_app _ _ (batch_ops (table_name params) (parquet_batches df')))
    by done.
  rewrite appended_batch_ops, parquet_batches_seq, length_fmap, length_seq.
  assert (Pd.len df' = Pd.len df) as ->.
  { apply normalize_shape in Hn as [Hidx _]. unfold Pd.len. by rewrite Hidx. }
  pose proof (len_nonneg df) as Hlen.
  pose proof (Z.div_mod (Pd.len df) 100000 ltac:(lia)) as Hdm.
  pose proof (Z.mod_pos_bound (Pd.len df) 100000 ltac:(lia)) as Hr.
  assert (0 ≤ Pd.len df `div` 100000) by (apply Z.div_pos; lia).
  rewrite Z2Nat.id by (apply Z.div_pos; lia). split; intros Hmod.
  - apply (Z.div_unique _ _ _ (Pd.len df `mod` 100000 - 1)); lia.
  - f_equal. apply (Z.div_unique _ _ _ 99999); lia.
Qed.

Lemma length_enumerate_from {A} (i : Z) (xs : list A) :
  length (Py.enumerate_from i xs) = length xs.
Proof. revert i. induction xs as [|x xs IH]; intros i; simpl; [done | by rewrite IH]. Qed.

Lemma take_fmap_seq {A} (f : nat → A) (m k : nat) :
  (k ≤ m)%nat → take k (f <$> seq 0 m) = f <$> seq 0 k.
Proof.
  intros Hk. rewrite <- fmap_take, take_seq. do 2 f_equal. lia.
Qed.

(** X14: each Parquet progress line shows, as its row count, the number
    of rows appended up to and including its batch. *)
Theorem parquet_progress_shows_rows_appended params w df :
  Py.endswith (file_path params) ".parquet" = true →
  files w !! file_path params = Some (ParquetData df) →
  (main to_datetime params w).2 = Ok tt →
  let w' := (main to_datetime params w).1 in
  ∃ progress,
    new_lines w w' =
      [DetectedParquet; ReadingParquet (file_path params); Loaded (Pd.len df);
       Columns (Pd.columns df); Inserting (table_name params)] ++ progress ++ [Completed] ∧
    length progress = length (appended (new_ops w w')) ∧
    ∀ (i : nat) l,
      progress !! i = Some l →
      l = InsertedParquet (Z.of_nat i + 1) (Pd.len df `div` 100000 + 1)
            (foldr (λ chunk n, Pd.len chunk + n) 0 (take (S i) (appended (new_ops w w'))))
            (Pd.len df).
Proof.
  intros Hp Hfile Hok. cbv zeta.
  destruct (main_ok_run to_datetime params w Hok)
    as [df0 df' _ Hfile0 Hn | df0 batches Hp0 | Hp0]; [| congruence ..].
  assert (df0 = df) as -> by congruence.
  rewrite (new_ops_app _ _ (batch_ops (table_name params) (parquet_batches df')))
    by done.
  rewrite appended_batch_ops.
  assert (Pd.len df' = Pd.len df) as Hlen.
  { apply normalize_shape in Hn as [Hidx _]. unfold Pd.len. by rewrite Hidx. }
  pose proof (len_nonneg df') as Hnn.
  destruct (ceil_bounds (Pd.len df') Hnn) as (Hq & Hup & Hlow).
  exists (progress_lines (parquet_line df') 0 (Py.range 0 (Pd.len df') 100000)
            (parquet_batches df')).
  split; [|split].
  - apply new_lines_app. unfold parquet_done, printed. cbn [stdout].
    by rewrite <- !app_assoc.
  - unfold parquet_batches.
    by rewrite progress_lines_fmap, !length_fmap, length_enumerate_from.
  - intros i l. unfold parquet_batches at 1. rewrite progress_lines_fmap.
    rewrite range_from_zero, range_len_pos by lia.
    replace (Pd.len df' + 100000 - 1) with (Pd.len df' + 99999) by lia.
    unfold Py.enumerate. rewrite enumerate_from_fmap_seq, <- list_fmap_compose.
    intros [j [-> [-> Hj]%lookup_seq]]%list_lookup_fmap_Some. simpl.
    unfold parquet_line. rewrite <- Hlen. f_equal; [lia |].
    rewrite sum_len, parquet_batches_seq, take_fmap_seq by lia.
    assert (concat (index <$>
              ((λ j : nat, Pd.iloc df' (Z.of_nat j * 100000)
                             (Z.min (Z.of_nat j * 100000 + 100000) (Pd.len df')))
                 <$> seq 0 (S i)))
            = Py.slice (Z.of_nat 0 * 100000)
                (Z.min (Z.of_nat (0 + S i) * 100000) (Pd.len df')) (index df')) as ->.
    { rewrite <- list_fmap_compose.
      exact (concat_slices_from 100000 (index df') (S i) 0 ltac:(lia)). }
    rewrite length_slice; unfold Pd.len in *; lia.
Qed.

End BatchSizes.

(** ** The further properties on sample runs *)

Lemma other_tables_are_untouched_witness :
  let params := sample_params "trips.csv" in
  let w := mkWorld {["trips.csv" := CsvData (trips 3)]} [] [] []
             {["zones" := mkTable [("zone", Object)] [[VStr "Astoria"]]]} in
  let w' := (main epoch_to_datetime params w).1 in
  db w' !! "zones" = db w !! "zones" ∧ files w' = files w.
Proof.
  apply (other_tables_are_untouched epoch_to_datetime (sample_params "trips.csv")
           (mkWorld {["trips.csv" := CsvData (trips 3)]} [] [] []
              {["zones" := mkTable [("zone", Object)] [[VStr "Astoria"]]]}) "zones").
  vm_compute. discriminate.
Defined.





Lemma run_depends_on_files_only_witness :
  let params := sample_params "trips.csv" in
  let w1 := sample_world "trips.csv" (CsvData (trips 3)) in
  let w2 := mkWorld {["trips.csv" := CsvData (trips 3)]} [Completed] [] [] ∅ in
  let w1' := (main epoch_to_datetime params w1).1 in
  let w2' := (main epoch_to_datetime params w2).1 in
  (main epoch_to_datetime params w1).2 = (main epoch_to_datetime params w2).2 ∧
  new_lines w1 w1' = new_lines w2 w2' ∧
  new_ops w1 w1' = new_ops w2 w2' ∧
  (appended (new_ops w1 w1') ≠ [] →
   db w1' !! table_name params = db w2' !! table_name params).
Proof.
  apply (run_depends_on_files_only epoch_to_datetime (sample_params "trips.csv")
           (sample_world "trips.csv" (CsvData (trips 3)))
           (mkWorld {["trips.csv" := CsvData (trips 3)]} [Completed] [] [] ∅)).
  reflexivity.
Defined.




Lemma table_columns_are_file_columns_witness :
  let params := sample_params "trips.csv" in
  let df := trips 250000 in
  let w := sample_world "trips.csv" (CsvData df) in
  ∃ t, db (main epoch_to_datetime params w).1 !! table_name params = Some t ∧
       (schema t).*1 = Pd.columns df.
Proof.
  apply (table_columns_are_file_columns epoch_to_datetime (sample_params "trips.csv")
           (sample_world "trips.csv" (CsvData (trips 250000))) (trips 250000)).
  - right. reflexivity.
  - vm_compute. reflexivity.
  - vm_compute. reflexivity.
Defined.

Lemma progress_total_is_right_unless_exact_multiple_witness :
  let params := sample_params "trips.parquet" in
  let df := trips 250000 in
  let w := sample_world "trips.parquet" (ParquetData df) in
  let written := Z.of_nat (length (appended (new_ops w (main epoch_to_datetime params w).1))) in
  let total_chunks := Pd.len df `div` 100000 + 1 in
  (Pd.len df `mod` 100000 ≠ 0 → total_chunks = written) ∧
  (Pd.len df `mod` 100000 = 0 → total_chunks = written + 1).
Proof.
  apply (progress_total_is_right_unless_exact_multiple epoch_to_datetime
           (sample_params "trips.parquet")
           (sample_world "trips.parquet" (ParquetData (trips 250000))) (trips 250000));
    [vm_compute; reflexivity | reflexivity | vm_compute; reflexivity].
Defined.

Lemma parquet_progress_shows_rows_appended_witness :
  let params := sample_params "trips.parquet" in
  let df := trips 250000 in
  let w := sample_world "trips.parquet" (ParquetData df) in
  let w' := (main epoch_to_datetime params w).1 in
  ∃ progress,
    new_lines w w' =
      [DetectedParquet; ReadingParquet (file_path params); Loaded (Pd.len df);
       Columns (Pd.columns df); Inserting (table_name params)] ++ progress ++ [Completed] ∧
    length progress = length (appended (new_ops w w')) ∧
    ∀ (i : nat) l,
      progress !! i = Some l →
      l = InsertedParquet (Z.of_nat i + 1) (Pd.len df `div` 100000 + 1)
            (foldr (λ chunk n, Pd.len chunk + n) 0 (take (S i) (appended (new_ops w w'))))
            (Pd.len df).
Proof.
  apply (parquet_progress_shows_rows_appended epoch_to_datetime
           (sample_params "trips.parquet")
           (sample_world "trips.parquet" (ParquetData (trips 250000))) (trips 250000));
    [vm_compute; reflexivity | reflexivity | vm_compute; reflexivity].
Defined.


(** A CSV file of 100001 rows whose last pickup time is text: the first
    chunk is loaded and stays, the second stops the run. *)
Example csv_stops_at_second_chunk :
  let params := sample_params "trips.csv" in
  let w := sample_world "trips.csv" (CsvData (trips_with_text 100000)) in
  let w' := (main epoch_to_datetime params w).1 in
  (main epoch_to_datetime params w).2 = Raised DateParseError ∧
  is_replace <$> new_ops w w' = [true; false] ∧
  new_lines w w' =
    [DetectedCsv; ReadingCsv "trips.csv"; Columns ["id"; "pickup_datetime"; "fare"];
     DetectedDatetime ["pickup_datetime"]; Inserting "trips"; InsertedCsv 1 100000] ∧
  (λ t, Z.of_nat (length (rows t))) <$> db w' !! "trips" = Some 100000.
Proof. cbv zeta. repeat apply conj; vm_compute; reflexivity. Qed.
